(** * osu-trainer: a shallow embedding of [main.py]

    The development follows the three functions of the program:
    [convert_file_to_dict] (the reader of an .osu file),
    [speedup_osu_file] (the rate change) and [convert_dict_to_file]
    (the writer).

    Conventions of the embedding.
    - A Python [str] is a [string]; characters are the 8-bit codes of
      [ascii], so the text is read as code points below 256.
    - A Python [int] is a [Z].
    - A Python [float] is idealised as the exact rational it denotes, kept
      as a reduced fraction ([Qred]): there is no binary rounding, overflow,
      infinity or NaN.  The examples of this file use values on which
      binary floating point is exact as well, or far from a rounding tie.
    - A Python exception is a constructor of [exn]; code that may raise
      returns a [result].
    - [repr] of a float has no rational counterpart: it is a variable
      [float_repr] of the sections below. *)

From Stdlib Require Import ZArith QArith Qround Qabs String Ascii List Bool Lia.
From Stdlib Require Import DecimalString Lqa.
From Stdlib Require Decimal DecimalPos DecimalFacts.
From stdpp Require Import base list.
Import ListNotations.
Local Open Scope string_scope.
Local Open Scope Z_scope.

(** ** Exceptions and results *)

Inductive exn : Type :=
| KeyError
| IndexError
| ValueError
| TypeError
| AttributeError
| ZeroDivisionError
| Unmodelled.   (* a float literal without rational value: inf, nan *)

Inductive result (A : Type) : Type :=
| Ok (a : A)
| Err (e : exn).
Arguments Ok {A} a.
Arguments Err {A} e.

Definition bind {A B : Type} (m : result A) (k : A -> result B) : result B :=
  match m with
  | Ok a => k a
  | Err e => Err e
  end.

Notation "x <- m ;; k" := (bind m (fun x => k))
  (at level 100, m at next level, right associativity).

Definition of_option {A : Type} (e : exn) (o : option A) : result A :=
  match o with
  | Some a => Ok a
  | None => Err e
  end.

(** A [for] loop that builds a list, stopping at the first exception. *)
Fixpoint mapM {A B : Type} (f : A -> result B) (l : list A) : result (list B) :=
  match l with
  | [] => Ok []
  | a :: l' => b <- f a ;; bs <- mapM f l' ;; Ok (b :: bs)
  end.

(** ** Strings *)

Module Str.

(** [str.isspace] on code points below 256. *)
Definition is_space (c : ascii) : bool :=
  let n := nat_of_ascii c in
  ((9 <=? n) && (n <=? 13) || (28 <=? n) && (n <=? 32)
   || (n =? 133) || (n =? 160))%nat.

Fixpoint lstrip (s : string) : string :=
  match s with
  | EmptyString => EmptyString
  | String c s' => if is_space c then lstrip s' else s
  end.

(** [rstrip] drops the longest suffix of white space. *)
Fixpoint rstrip (s : string) : string :=
  match s with
  | EmptyString => EmptyString
  | String c s' =>
      match rstrip s' with
      | EmptyString => if is_space c then EmptyString else String c EmptyString
      | r => String c r
      end
  end.

(** [s.strip()] *)
Definition strip (s : string) : string := rstrip (lstrip s).

(** [s.startswith(p)] *)
Definition startswith (p s : string) : bool := String.prefix p s.

Fixpoint drop (n : nat) (s : string) : string :=
  match n, s with
  | O, _ => s
  | S n', String _ s' => drop n' s'
  | S _, EmptyString => EmptyString
  end.

Fixpoint take (n : nat) (s : string) : string :=
  match n, s with
  | S n', String c s' => String c (take n' s')
  | _, _ => EmptyString
  end.

(** [s.split(sep)] for a non-empty [sep]: the text is cut at the
    occurrences of [sep] found from left to right, without overlap.
    [skip] counts the characters of a separator still to be passed over.
    The result is never empty: its head is the piece being read. *)
Definition cons_head (c : ascii) (l : list string) : list string :=
  match l with
  | p :: ps => String c p :: ps
  | [] => [String c ""]
  end.

Fixpoint split_go (sep : string) (skip : nat) (s : string) : list string :=
  match s with
  | EmptyString => [""]
  | String c s' =>
      match skip with
      | S k => split_go sep k s'
      | O =>
          if String.prefix sep s
          then "" :: split_go sep (String.length sep - 1) s'
          else cons_head c (split_go sep 0 s')
      end
  end.

Definition split (sep s : string) : list string := split_go sep 0 s.

(** [sep.join(l)] *)
Definition join (sep : string) (l : list string) : string := String.concat sep l.

(** [sep in s] *)
Fixpoint contains (sep s : string) : bool :=
  String.prefix sep s ||
  match s with
  | EmptyString => false
  | String _ s' => contains sep s'
  end.

(** [s.rfind(c)] for a one-character pattern: the last index, or -1. *)
Fixpoint rfind_from (c : ascii) (i : Z) (last : Z) (s : string) : Z :=
  match s with
  | EmptyString => last
  | String a s' => rfind_from c (i + 1) (if Ascii.eqb a c then i else last) s'
  end.

Definition rfind (c : ascii) (s : string) : Z := rfind_from c 0 (-1) s.

(** [s[:i]], with Python's reading of a negative bound. *)
Definition slice_to (i : Z) (s : string) : string :=
  let n := Z.of_nat (String.length s) in
  let j := if i <? 0 then Z.max 0 (n + i) else i in
  take (Z.to_nat j) s.

(** The characters of a string, each as a string (iterating a [str]). *)
Fixpoint chars (s : string) : list string :=
  match s with
  | EmptyString => []
  | String c s' => String c "" :: chars s'
  end.

(** Text-mode iteration over a file: the lines with their terminator,
    the terminators CR, LF and CR LF all read as LF (universal newlines).
    A last line without terminator is a line too; the empty text has none. *)
Definition LF : ascii := "010"%char.
Definition CR : ascii := "013"%char.
Definition newline : string := String LF "".

Fixpoint lines (s : string) : list string :=
  match s with
  | EmptyString => []
  | String c s' =>
      if Ascii.eqb c LF then newline :: lines s'
      else if Ascii.eqb c CR then
        match s' with
        | String c' s'' =>
            if Ascii.eqb c' LF then newline :: lines s''
            else newline :: lines s'
        | EmptyString => [newline]
        end
      else cons_head c (lines s')
  end.

End Str.

(** ** Numbers *)

(** A Python number: an [int] or a [float]. *)
Inductive number : Type :=
| PyInt (z : Z)
| PyFloat (q : Q).

Definition to_Q (n : number) : Q :=
  match n with
  | PyInt z => inject_Z z
  | PyFloat q => q
  end.

Definition Qltb (x y : Q) : bool := negb (Qle_bool y x).

(** [a / b]: true division, always a float. *)
Definition truediv (a b : number) : result number :=
  if Qeq_bool (to_Q b) 0 then Err ZeroDivisionError
  else Ok (PyFloat (Qred (to_Q a / to_Q b))).

(** [a < b] and [a > b] on numbers. *)
Definition num_lt (a b : number) : bool := Qltb (to_Q a) (to_Q b).
Definition num_gt (a b : number) : bool := Qltb (to_Q b) (to_Q a).

(** Rounding to the nearest integer, ties to the even one. *)
Definition round_half_even (q : Q) : Z :=
  let f := Qfloor q in
  match Qcompare (q - inject_Z f) (1 # 2) with
  | Lt => f
  | Gt => f + 1
  | Eq => if Z.even f then f else f + 1
  end.

(** [round(x)]: an [int]. *)
Definition py_round (x : number) : Z :=
  match x with
  | PyInt z => z
  | PyFloat q => round_half_even q
  end.

(** [round(x, 1)]: an [int] stays as it is, a float is rounded to one
    decimal. *)
Definition py_round1 (x : number) : number :=
  match x with
  | PyInt z => PyInt z
  | PyFloat q => PyFloat (Qred (inject_Z (round_half_even (q * 10)) / 10))
  end.

(** [min(x, 10)]: the first argument unless the second is smaller. *)
Definition py_min10 (x : number) : number :=
  if num_lt (PyInt 10) x then PyInt 10 else x.

(** [int(x)] on a float truncates towards zero. *)
Definition Qtruncate (q : Q) : Z :=
  if Qle_bool 0 q then Qfloor q else Qceiling q.

(** *** Integer and float literals *)

Definition digit_of (c : ascii) : option Z :=
  let n := nat_of_ascii c in
  if ((48 <=? n) && (n <=? 57))%nat then Some (Z.of_nat (n - 48)) else None.

Definition is_digit (c : ascii) : bool :=
  match digit_of c with Some _ => true | None => false end.

(** The longest prefix of decimal digits, with single underscores accepted
    between two digits: its value, its number of digits, and the rest. *)
Fixpoint digits_go (acc : Z) (count : nat) (s : string) : Z * nat * string :=
  match s with
  | EmptyString => (acc, count, EmptyString)
  | String c s' =>
      match digit_of c with
      | Some d => digits_go (10 * acc + d) (S count) s'
      | None =>
          if Ascii.eqb c "_" then
            match count, s' with
            | S _, String c' _ =>
                if is_digit c' then digits_go acc count s' else (acc, count, s)
            | _, _ => (acc, count, s)
            end
          else (acc, count, s)
      end
  end.

(** An optional sign: [true] when negative, and the rest. *)
Definition take_sign (s : string) : bool * string :=
  match s with
  | String c s' =>
      if Ascii.eqb c "-" then (true, s')
      else if Ascii.eqb c "+" then (false, s')
      else (false, s)
  | EmptyString => (false, s)
  end.

(** [int(s)] on a string, base 10. *)
Definition int_of_string (s : string) : result Z :=
  let '(neg, body) := take_sign (Str.strip s) in
  match digits_go 0 0 body with
  | (v, S _, EmptyString) => Ok (if neg then - v else v)
  | _ => Err ValueError
  end.

Definition lower (c : ascii) : ascii :=
  let n := nat_of_ascii c in
  if ((65 <=? n) && (n <=? 90))%nat then ascii_of_nat (n + 32) else c.

Fixpoint lower_string (s : string) : string :=
  match s with
  | EmptyString => EmptyString
  | String c s' => String (lower c) (lower_string s')
  end.

(** [float(s)] on a string: a decimal literal with optional fraction and
    exponent.  The literals of infinity and NaN are outside the model. *)
Definition float_of_string (s : string) : result Q :=
  let '(neg, body) := take_sign (Str.strip s) in
  let low := lower_string body in
  if (low =? "inf")%string || (low =? "infinity")%string || (low =? "nan")%string
  then Err Unmodelled
  else
    let '(ip, n1, rest1) := digits_go 0 0 body in
    let '(fp, n2, rest2) :=
      match rest1 with
      | String c r => if Ascii.eqb c "." then digits_go 0 0 r else (0, O, rest1)
      | EmptyString => (0, O, rest1)
      end in
    match (n1 + n2)%nat with
    | O => Err ValueError
    | S _ =>
        let m := (inject_Z ip + inject_Z fp / inject_Z (10 ^ Z.of_nat n2))%Q in
        let sm := if neg then (- m)%Q else m in
        match rest2 with
        | EmptyString => Ok (Qred sm)
        | String c r =>
            if Ascii.eqb (lower c) "e" then
              let '(eneg, ebody) := take_sign r in
              match digits_go 0 0 ebody with
              | (ev, S _, EmptyString) =>
                  Ok (Qred (if eneg then sm / inject_Z (10 ^ ev)
                            else sm * inject_Z (10 ^ ev)))
              | _ => Err ValueError
              end
            else Err ValueError
        end
    end.

(** [str(z)] on an [int]. *)
Definition string_of_Z (z : Z) : string :=
  DecimalString.NilZero.string_of_int (Z.to_int z).

(** ** Values, dictionaries and documents *)

(** What a field of a document holds: the reader stores strings, the rate
    change stores numbers. *)
Inductive value : Type :=
| VStr (s : string)
| VNum (n : number).

(** A Python [dict] with string keys: the entries in insertion order, each
    key once.  Writing to a present key keeps its place. *)
Definition dict (V : Type) : Type := list (string * V).

Fixpoint dict_get {V : Type} (k : string) (d : dict V) : option V :=
  match d with
  | [] => None
  | (k', v) :: d' => if String.eqb k k' then Some v else dict_get k d'
  end.

Fixpoint dict_set {V : Type} (k : string) (v : V) (d : dict V) : dict V :=
  match d with
  | [] => [(k, v)]
  | (k', v') :: d' =>
      if String.eqb k k' then (k', v) :: d' else (k', v') :: dict_set k v d'
  end.

(** A section is a list of records (comma-separated lines) or a dictionary
    (key-value lines). *)
Inductive section : Type :=
| SList (records : list (list value))
| SDict (entries : dict value).

Definition document : Type := dict section.

(** [d[h]] *)
Definition get_section (d : document) (h : string) : result section :=
  of_option KeyError (dict_get h d).

(** [sec[k]] with a string [k]. *)
Definition getitem (sec : section) (k : string) : result value :=
  match sec with
  | SDict kv => of_option KeyError (dict_get k kv)
  | SList _ => Err TypeError
  end.

(** [sec[k] = v] with a string [k]. *)
Definition setitem (sec : section) (k : string) (v : value) : result section :=
  match sec with
  | SDict kv => Ok (SDict (dict_set k v kv))
  | SList _ => Err TypeError
  end.

(** [d[h][k]] *)
Definition lookup_field (d : document) (h k : string) : result value :=
  sec <- get_section d h ;; getitem sec k.

(** [d[h][k] = v], the right-hand side being already evaluated. *)
Definition store_field (d : document) (h k : string) (v : value) : result document :=
  sec <- get_section d h ;;
  sec' <- setitem sec k v ;;
  Ok (dict_set h sec' d).

(** [int(v)] *)
Definition py_int (v : value) : result Z :=
  match v with
  | VStr s => int_of_string s
  | VNum (PyInt z) => Ok z
  | VNum (PyFloat q) => Ok (Qtruncate q)
  end.

(** [float(v)] *)
Definition py_float (v : value) : result Q :=
  match v with
  | VStr s => float_of_string s
  | VNum n => Ok (Qred (to_Q n))
  end.

(** [v == 2] and [v == "Break"]: a string never equals a number. *)
Definition eq_int (v : value) (z : Z) : bool :=
  match v with
  | VStr _ => false
  | VNum n => Qeq_bool (to_Q n) (inject_Z z)
  end.

Definition eq_str (v : value) (s : string) : bool :=
  match v with
  | VStr s' => String.eqb s' s
  | VNum _ => false
  end.

(** [l[i]] on a list. *)
Definition index {A : Type} (l : list A) (i : nat) : result A :=
  of_option IndexError (l !! i).

(** ** The reader: [convert_file_to_dict] *)

(** The three variables of the loop. *)
Record reader : Type := Reader {
  osu_file_dict : document;
  is_in_section : bool;
  current_header : string
}.

(** [osu_file_dict[current_header][line[0]] = line[1]] *)
Definition store_pair (st : reader) (line : list string) : result reader :=
  v <- index line 1 ;;
  sec <- get_section (osu_file_dict st) (current_header st) ;;
  k <- index line 0 ;;
  sec' <- setitem sec k (VStr v) ;;
  Ok (Reader (dict_set (current_header st) sec' (osu_file_dict st))
             (is_in_section st) (current_header st)).

(** [osu_file_dict[current_header].append(line)]: a dictionary has no
    [append]. *)
Definition append_record (st : reader) (line : list string) : result reader :=
  sec <- get_section (osu_file_dict st) (current_header st) ;;
  match sec with
  | SList rs =>
      Ok (Reader (dict_set (current_header st)
                           (SList (rs ++ [map VStr line])) (osu_file_dict st))
                 (is_in_section st) (current_header st))
  | SDict _ => Err AttributeError
  end.

(** The body of the loop over the lines (lines 31-67). *)
Definition read_line (st : reader) (raw : string) : result reader :=
  let line := Str.strip raw in
  if Str.startswith "//" line then Ok st
  else if String.eqb line "" then
    Ok (Reader (osu_file_dict st) false (current_header st))
  else if negb (is_in_section st) then
    let current_header := line in
    if String.eqb current_header "[Events]"
       || String.eqb current_header "[TimingPoints]"
       || String.eqb current_header "[HitObjects]"
    then Ok (Reader (dict_set current_header (SList []) (osu_file_dict st))
                    true current_header)
    else Ok (Reader (dict_set current_header (SDict []) (osu_file_dict st))
                    true current_header)
  else
    let h := current_header st in
    if String.eqb h "[General]" || String.eqb h "[Editor]"
    then store_pair st (Str.split ": " line)
    else if String.eqb h "[Metadata]" || String.eqb h "[Difficulty]"
    then store_pair st (Str.split ":" line)
    else if String.eqb h "[Colours]"
    then store_pair st (Str.split " : " line)
    else append_record st (Str.split "," line).

Fixpoint read_loop (st : reader) (ls : list string) : result reader :=
  match ls with
  | [] => Ok st
  | l :: ls' => st' <- read_line st l ;; read_loop st' ls'
  end.

(** [convert_file_to_dict], on the text of the file: the first line is
    read and dropped, the others go through the loop. *)
Definition convert_file_to_dict (text : string) : result document :=
  st <- read_loop (Reader [] false "") (tail (Str.lines text)) ;;
  Ok (osu_file_dict st).

(** ** The rate change: [speedup_osu_file] *)

(** The request handed to [speedup_audio_file]: input path, tempo, output
    path.  Running ffmpeg is outside the embedding. *)
Record audio_job : Type := AudioJob {
  input_path : string;
  tempo : number;
  output_path : string
}.

(** [round(int(v) / rate)], the rescaling of a time stamp. *)
Definition rescale (v : value) (rate : number) : result Z :=
  t <- py_int v ;;
  x <- truediv (PyInt t) rate ;;
  Ok (py_round x).

(** Lines 93-106, and again lines 138-154: the approach rate that gives,
    at speed [rate], the preempt time of [approach_rate]. *)
Definition new_approach_rate (approach_rate : Z) (rate : number) : result number :=
  let preempt :=
    if approach_rate <? 5
    then PyFloat (Qred (1200 + inject_Z (600 * (5 - approach_rate)) / 5))
    else if approach_rate >? 5
    then PyFloat (Qred (1200 - inject_Z (750 * (approach_rate - 5)) / 5))
    else PyInt 1200 in
  preempt <- truediv preempt rate ;;
  if num_gt preempt (PyInt 1200)
  then Ok (PyFloat (Qred ((to_Q preempt - 1800) / -120)))
  else if num_lt preempt (PyInt 1200)
  then Ok (PyFloat (Qred ((to_Q preempt - 1950) / -150)))
  else Ok (PyInt 5).

(** Lines 108-110, and again lines 165-171. *)
Definition new_overall_difficulty (overall_difficulty : Z) (rate : number)
  : result number :=
  let hit_window := PyInt (80 - 6 * overall_difficulty) in
  hit_window <- truediv hit_window rate ;;
  Ok (PyFloat (Qred ((to_Q hit_window - 80) / -6))).

(** Lines 91-113: the rate used for every rescaling. *)
Definition effective_rate (d : document) (rate : number) : result number :=
  v <- lookup_field d "[Difficulty]" "ApproachRate" ;;
  approach_rate <- py_int v ;;
  new_ar <- new_approach_rate approach_rate rate ;;
  v <- lookup_field d "[Difficulty]" "OverallDifficulty" ;;
  overall_difficulty <- py_int v ;;
  new_od <- new_overall_difficulty overall_difficulty rate ;;
  if num_gt new_ar (PyInt 10) || num_gt new_od (PyInt 10)
  then truediv rate (PyFloat (3 # 2))
  else Ok rate.

(** Lines 181-191, the body of the loop over the events.  [event.copy()] is
    the list itself, lists being values here; what [print] writes to the
    standard output is left out. *)
Definition adjust_event (rate : number) (event : list value) : result (list value) :=
  let new_event := event in
  v <- index event 1 ;;
  t <- rescale v rate ;;
  let new_event := <[1%nat := VNum (PyInt t)]> new_event in
  tag <- index event 0 ;;
  if eq_int tag 2 || eq_str tag "Break"
  then
    v <- index event 2 ;;
    t <- rescale v rate ;;
    Ok (<[2%nat := VNum (PyInt t)]> new_event)
  else Ok new_event.

(** Lines 199-209, the body of the loop over the timing points. *)
Definition adjust_timing_point (rate : number) (timing_point : list value)
  : result (list value) :=
  let new_timing_point := timing_point in
  v <- index timing_point 0 ;;
  t <- rescale v rate ;;
  let new_timing_point := <[0%nat := VNum (PyInt t)]> new_timing_point in
  flag <- index timing_point 6 ;;
  if eq_str flag "1"
  then
    v <- index timing_point 1 ;;
    x <- py_float v ;;
    y <- truediv (PyFloat x) rate ;;
    Ok (<[1%nat := VNum y]> new_timing_point)
  else Ok new_timing_point.

(** Lines 221-231, the body of the loop over the hit objects. *)
Definition adjust_hit_object (rate : number) (hit_object : list value)
  : result (list value) :=
  let new_hit_object := hit_object in
  v <- index hit_object 2 ;;
  t <- rescale v rate ;;
  let new_hit_object := <[2%nat := VNum (PyInt t)]> new_hit_object in
  v <- index hit_object 3 ;;
  type <- py_int v ;;
  if negb (Z.land type 8 =? 0)
  then
    v <- index hit_object 5 ;;
    t <- rescale v rate ;;
    Ok (<[5%nat := VNum (PyInt t)]> new_hit_object)
  else Ok new_hit_object.

(** A [for] loop over a section with a body that starts with [.copy()]:
    over a dictionary it runs on the keys, which are strings and have no
    [copy]. *)
Definition for_records (f : list value -> result (list value)) (sec : section)
  : result (list (list value)) :=
  match sec with
  | SList rs => mapM f rs
  | SDict [] => Ok []
  | SDict (_ :: _) => Err AttributeError
  end.

(** ["Bookmarks" in sec] *)
Definition has_key (k : string) (sec : section) : bool :=
  match sec with
  | SDict kv => match dict_get k kv with Some _ => true | None => false end
  | SList _ => false
  end.

Section Printing.

(** [repr] of a float. *)
Variable float_repr : Q -> string.

(** [str(n)] and [str(v)] *)
Definition num_str (n : number) : string :=
  match n with
  | PyInt z => string_of_Z z
  | PyFloat q => float_repr q
  end.

Definition py_str (v : value) : string :=
  match v with
  | VStr s => s
  | VNum n => num_str n
  end.

(** Lines 121-128: the bookmarks of the editor. *)
Definition adjust_bookmarks (d : document) (rate : number) : result document :=
  editor <- get_section d "[Editor]" ;;
  if has_key "Bookmarks" editor
  then
    v <- getitem editor "Bookmarks" ;;
    match v with
    | VStr s =>
        let editor_bookmarks := Str.split "," s in
        editor_bookmarks_adjusted <-
          mapM (fun b => rescale (VStr b) rate) editor_bookmarks ;;
        store_field d "[Editor]" "Bookmarks"
          (VStr (Str.join "," (map string_of_Z editor_bookmarks_adjusted)))
    | VNum _ => Err AttributeError
    end
  else Ok d.

(** Lines 243-245: the name of the new audio file. *)
Definition adjust_audio (d : document) (rate orig_rate : number)
  : result (document * audio_job) :=
  v <- lookup_field d "[General]" "AudioFilename" ;;
  match v with
  | VStr name =>
      let filename_no_path := Str.slice_to (Str.rfind "." name) name in
      let out := num_str orig_rate ++ "-" ++ filename_no_path ++ ".mp3" in
      d <- store_field d "[General]" "AudioFilename" (VStr out) ;;
      Ok (d, AudioJob name rate out)
  | VNum _ => Err AttributeError
  end.

(** Lines 116-233 with the rate [rate] they run at. *)
Definition rescale_document (d : document) (rate : number) : result document :=
  (* General adjustments *)
  v <- lookup_field d "[General]" "AudioLeadIn" ;;
  t <- rescale v rate ;;
  d <- store_field d "[General]" "AudioLeadIn" (VNum (PyInt t)) ;;
  v <- lookup_field d "[General]" "PreviewTime" ;;
  t <- rescale v rate ;;
  d <- store_field d "[General]" "PreviewTime" (VNum (PyInt t)) ;;
  (* Editor adjustments *)
  d <- adjust_bookmarks d rate ;;
  (* Difficulty adjustments *)
  v <- lookup_field d "[Difficulty]" "ApproachRate" ;;
  approach_rate <- py_int v ;;
  new_ar <- new_approach_rate approach_rate rate ;;
  d <- store_field d "[Difficulty]" "ApproachRate"
         (VNum (py_min10 (py_round1 new_ar))) ;;
  v <- lookup_field d "[Difficulty]" "OverallDifficulty" ;;
  overall_difficulty <- py_int v ;;
  new_od <- new_overall_difficulty overall_difficulty rate ;;
  d <- store_field d "[Difficulty]" "OverallDifficulty"
         (VNum (py_min10 (py_round1 new_od))) ;;
  (* Events adjustments *)
  events <- get_section d "[Events]" ;;
  events_adjusted <- for_records (adjust_event rate) events ;;
  let d := dict_set "[Events]" (SList events_adjusted) d in
  (* TimingPoints adjustments *)
  timing_points <- get_section d "[TimingPoints]" ;;
  timing_points_adjusted <- for_records (adjust_timing_point rate) timing_points ;;
  let d := dict_set "[TimingPoints]" (SList timing_points_adjusted) d in
  (* HitObjects adjustments *)
  hit_objects <- get_section d "[HitObjects]" ;;
  hit_objects_adjusted <- for_records (adjust_hit_object rate) hit_objects ;;
  Ok (dict_set "[HitObjects]" (SList hit_objects_adjusted) d).

(** [speedup_osu_file]: the document it returns and the audio request it
    makes.  The dictionary is updated in place by the program; here the
    updated dictionary is the result, and nothing is returned when an
    exception is raised. *)
Definition speedup_osu_file (d : document) (rate : number)
  : result (document * audio_job) :=
  (* line 81 *)
  version <- lookup_field d "[Metadata]" "Version" ;;
  d <- store_field d "[Metadata]" "Version"
         (VStr (py_str version ++ " " ++ num_str rate ++ "x")) ;;
  let orig_rate := rate in
  rate <- effective_rate d rate ;;
  d <- rescale_document d rate ;;
  adjust_audio d rate orig_rate.

(** ** The writer: [convert_dict_to_file] *)

(** [sec.items()] *)
Definition items (sec : section) : result (list (string * value)) :=
  match sec with
  | SDict kv => Ok kv
  | SList _ => Err AttributeError
  end.

(** The lines written for a key-value section with separator [sep]. *)
Definition write_pairs (sep : string) (kv : list (string * value)) : string :=
  String.concat ""
    (map (fun '(key, v) => key ++ sep ++ py_str v ++ Str.newline) kv).

(** [",".join([str(thing) for thing in line])] for each [line] of a
    section; the lines of a dictionary are its keys, taken character by
    character. *)
Definition record_lines (sec : section) : list string :=
  match sec with
  | SList rs => map (fun line => Str.join "," (map py_str line)) rs
  | SDict kv => map (fun '(key, _) => Str.join "," (Str.chars key)) kv
  end.

Definition write_records (ls : list string) : string :=
  String.concat "" (map (fun l => l ++ Str.newline) ls).

(** The last loop: no line terminator after the last line. *)
Fixpoint write_hit_objects (ls : list string) : string :=
  match ls with
  | [] => ""
  | [l] => l
  | l :: ls' => l ++ Str.newline ++ write_hit_objects ls'
  end.

(** [convert_dict_to_file]: the text written to the file. *)
Definition convert_dict_to_file (d : document) : result string :=
  let nl := Str.newline in
  general <- get_section d "[General]" ;;
  general <- items general ;;
  editor <- get_section d "[Editor]" ;;
  editor <- items editor ;;
  metadata <- get_section d "[Metadata]" ;;
  metadata <- items metadata ;;
  difficulty <- get_section d "[Difficulty]" ;;
  difficulty <- items difficulty ;;
  events <- get_section d "[Events]" ;;
  timing_points <- get_section d "[TimingPoints]" ;;
  colours <- get_section d "[Colours]" ;;
  colours <- items colours ;;
  hit_objects <- get_section d "[HitObjects]" ;;
  Ok ("osu file format v14" ++ nl ++ nl
      ++ "[General]" ++ nl ++ write_pairs ": " general ++ nl
      ++ "[Editor]" ++ nl ++ write_pairs ": " editor ++ nl
      ++ "[Metadata]" ++ nl ++ write_pairs ":" metadata ++ nl
      ++ "[Difficulty]" ++ nl ++ write_pairs ":" difficulty ++ nl
      ++ "[Events]" ++ nl ++ write_records (record_lines events) ++ nl
      ++ "[TimingPoints]" ++ nl ++ write_records (record_lines timing_points)
      ++ nl ++ nl
      ++ "[Colours]" ++ nl ++ write_pairs " : " colours ++ nl
      ++ "[HitObjects]" ++ nl ++ write_hit_objects (record_lines hit_objects)).

End Printing.

(** A printer of floats to run the examples with: the decimal expansion,
    cut after twelve decimals, with at least one decimal. *)
Fixpoint strip_zeros (fuel : nat) (frac : Z) (len : nat) : Z * nat :=
  match fuel with
  | O => (frac, len)
  | S fuel' =>
      match len with
      | S (S len') =>
          if frac mod 10 =? 0 then strip_zeros fuel' (frac / 10) (S len')
          else (frac, len)
      | _ => (frac, len)
      end
  end.

Fixpoint pad_zeros (n : nat) (s : string) : string :=
  match n with
  | O => s
  | S n' => if (String.length s <? n)%nat then pad_zeros n' (String "0" s) else s
  end.

Definition decimal_repr (q : Q) : string :=
  let neg := negb (Qle_bool 0 q) in
  let a := Qabs q in
  let ip := Qfloor a in
  let fr := Qfloor ((a - inject_Z ip) * inject_Z (10 ^ 12)) in
  let '(fr, len) := strip_zeros 12 fr 12 in
  (if neg then "-" else "") ++ string_of_Z ip ++ "."
  ++ pad_zeros len (string_of_Z fr).

(** ** The headers of the format *)

(** The eight headers that the writer emits. *)
Definition recognized (h : string) : bool :=
  existsb (String.eqb h)
    ["[General]"; "[Editor]"; "[Metadata]"; "[Difficulty]";
     "[Events]"; "[TimingPoints]"; "[Colours]"; "[HitObjects]"].

(** [c in s] for a character [c]. *)
Fixpoint has_char (c : ascii) (s : string) : bool :=
  match s with
  | EmptyString => false
  | String a s' => Ascii.eqb a c || has_char c s'
  end.

(** ** Documents that can be written and read back *)

(** A line that the reader takes as it is written: not empty, without line
    break, without white space at either end, and not a comment. *)
Definition clean (l : string) : bool :=
  negb (String.eqb l "")
  && negb (has_char Str.LF l) && negb (has_char Str.CR l)
  && String.eqb (Str.lstrip l) l && String.eqb (Str.rstrip l) l
  && negb (Str.startswith "//" l).

(** A key and a written value that the separator [sep] cuts apart again. *)
Definition pair_ok (sep key v : string) : bool :=
  clean (key ++ sep ++ v) && negb (has_char ":" key) && negb (Str.contains sep v).

Fixpoint nodupb (l : list string) : bool :=
  match l with
  | [] => true
  | x :: l' => negb (existsb (String.eqb x) l') && nodupb l'
  end.

Section Writable.

Variable float_repr : Q -> string.

Definition pairs_ok (sep : string) (kv : dict value) : bool :=
  nodupb (map fst kv)
  && forallb (fun '(key, v) => pair_ok sep key (py_str float_repr v)) kv.

(** A record whose written fields the commas cut apart again. *)
Definition record_ok (r : list value) : bool :=
  match r with
  | [] => false
  | _ =>
      clean (Str.join "," (map (py_str float_repr) r))
      && forallb (fun f => negb (Str.contains "," (py_str float_repr f))) r
  end.

Definition dict_section_ok (sep : string) (d : document) (h : string) : bool :=
  match dict_get h d with
  | Some (SDict kv) => pairs_ok sep kv
  | _ => false
  end.

Definition list_section_ok (d : document) (h : string) : bool :=
  match dict_get h d with
  | Some (SList rs) => forallb record_ok rs
  | _ => false
  end.

Definition writable (d : document) : bool :=
  dict_section_ok ": " d "[General]" && dict_section_ok ": " d "[Editor]"
  && dict_section_ok ":" d "[Metadata]" && dict_section_ok ":" d "[Difficulty]"
  && list_section_ok d "[Events]" && list_section_ok d "[TimingPoints]"
  && dict_section_ok " : " d "[Colours]" && list_section_ok d "[HitObjects]".

(** What the reader makes of a written section: every value as the string
    that was written for it. *)
Definition pairs_as_read (kv : dict value) : dict value :=
  map (fun '(key, v) => (key, VStr (py_str float_repr v))) kv.

Definition records_as_read (rs : list (list value)) : list (list value) :=
  map (map (fun v => VStr (py_str float_repr v))) rs.

Definition as_read (sec : section) : section :=
  match sec with
  | SDict kv => SDict (pairs_as_read kv)
  | SList rs => SList (records_as_read rs)
  end.

(** The document read from the text written for [d]: the eight sections of
    the writer, in its order. *)
Definition reread (d : document) : document :=
  flat_map (fun h => match dict_get h d with
                     | Some sec => [(h, as_read sec)]
                     | None => []
                     end)
    ["[General]"; "[Editor]"; "[Metadata]"; "[Difficulty]";
     "[Events]"; "[TimingPoints]"; "[Colours]"; "[HitObjects]"].

End Writable.

(** The three separators of the key-value sections, and under which header
    the reader uses which; the headers of the sections of records. *)
Definition is_separator (sep : string) : Prop :=
  sep = ": " \/ sep = ":" \/ sep = " : ".

Definition pair_header (h sep : string) : Prop :=
  (h = "[General]" \/ h = "[Editor]") /\ sep = ": " \/
  (h = "[Metadata]" \/ h = "[Difficulty]") /\ sep = ":" \/
  h = "[Colours]" /\ sep = " : ".

Definition list_header (h : string) : Prop :=
  h = "[Events]" \/ h = "[TimingPoints]" \/ h = "[HitObjects]".

(** ** The fields that the rate change stores *)

(** [rescaled r d d']: the fields of [d'] that come from those of [d] by
    the rescalings of lines 116-233 at the rate [r]. *)
Record rescaled (r : number) (d d' : document) : Prop := {
  rs_lead_in : exists v t,
    lookup_field d "[General]" "AudioLeadIn" = Ok v /\ rescale v r = Ok t /\
    lookup_field d' "[General]" "AudioLeadIn" = Ok (VNum (PyInt t));
  rs_preview : exists v t,
    lookup_field d "[General]" "PreviewTime" = Ok v /\ rescale v r = Ok t /\
    lookup_field d' "[General]" "PreviewTime" = Ok (VNum (PyInt t));
  rs_bookmarks : forall v,
    lookup_field d "[Editor]" "Bookmarks" = Ok v ->
    exists s ts, v = VStr s /\
      mapM (fun b => rescale (VStr b) r) (Str.split "," s) = Ok ts /\
      lookup_field d' "[Editor]" "Bookmarks"
      = Ok (VStr (Str.join "," (map string_of_Z ts)));
  rs_approach_rate : exists v ar n,
    lookup_field d "[Difficulty]" "ApproachRate" = Ok v /\ py_int v = Ok ar /\
    new_approach_rate ar r = Ok n /\
    lookup_field d' "[Difficulty]" "ApproachRate"
    = Ok (VNum (py_min10 (py_round1 n)));
  rs_overall_difficulty : exists v od n,
    lookup_field d "[Difficulty]" "OverallDifficulty" = Ok v /\ py_int v = Ok od /\
    new_overall_difficulty od r = Ok n /\
    lookup_field d' "[Difficulty]" "OverallDifficulty"
    = Ok (VNum (py_min10 (py_round1 n)));
  rs_events : exists sec l,
    get_section d "[Events]" = Ok sec /\
    for_records (adjust_event r) sec = Ok l /\
    get_section d' "[Events]" = Ok (SList l);
  rs_timing_points : exists sec l,
    get_section d "[TimingPoints]" = Ok sec /\
    for_records (adjust_timing_point r) sec = Ok l /\
    get_section d' "[TimingPoints]" = Ok (SList l);
  rs_hit_objects : exists sec l,
    get_section d "[HitObjects]" = Ok sec /\
    for_records (adjust_hit_object r) sec = Ok l /\
    get_section d' "[HitObjects]" = Ok (SList l)
}.

(** ** Documents that the rate change can run on *)










(** ** The time stamps of a document *)





(** The time stamp [t] rescaled at rate [r]: [round(t / r)]. *)
Definition rescaled_time (r : number) (t t' : Z) : Prop :=
  ~ (to_Q r == 0)%Q /\ t' = round_half_even (inject_Z t / to_Q r).



(** ** The audio request and the program *)


Section Program.

Variable float_repr : Q -> string.



End Program.

(** ** White space *)

Fixpoint all_chars (P : ascii -> bool) (s : string) : bool :=
  match s with
  | EmptyString => true
  | String c s' => P c && all_chars P s'
  end.

(** A string of white space only. *)
Definition blank (s : string) : bool := all_chars Str.is_space s.

(** ** The documents that the reader returns *)

Definition is_string (v : value) : bool :=
  match v with VStr _ => true | VNum _ => false end.

(** The headers under which the reader keeps a list (line 48). *)
Definition list_headerb (h : string) : bool :=
  String.eqb h "[Events]" || String.eqb h "[TimingPoints]"
  || String.eqb h "[HitObjects]".

(** A list of records, none empty, under one of the three headers of line
    48, and a dictionary with distinct keys under any other header; every
    value a string. *)
Definition section_shape (h : string) (sec : section) : bool :=
  match sec with
  | SList rs =>
      list_headerb h
      && forallb (fun r => negb (length r =? 0)%nat && forallb is_string r) rs
  | SDict kv =>
      negb (list_headerb h) && nodupb (map fst kv)
      && forallb (fun '(_, v) => is_string v) kv
  end.

Definition read_shape (d : document) : bool :=
  nodupb (map fst d) && forallb (fun '(h, sec) => section_shape h sec) d.

(** What holds of the variables of the reader between two lines: the
    dictionary has the shape above, and inside a section the current header
    is one of its keys. *)
Definition reader_ok (st : reader) : Prop :=
  read_shape (osu_file_dict st) = true /\
  (is_in_section st = true ->
   exists sec, dict_get (current_header st) (osu_file_dict st) = Some sec).

(** ** What a run keeps *)

(** The fields that [speedup_osu_file] assigns to, and the sections that it
    replaces by a new list. *)
Definition assigned_fields : list (string * string) :=
  [ ("[Metadata]", "Version"); ("[General]", "AudioLeadIn");
    ("[General]", "PreviewTime"); ("[Editor]", "Bookmarks");
    ("[Difficulty]", "ApproachRate"); ("[Difficulty]", "OverallDifficulty");
    ("[General]", "AudioFilename") ].

Definition replaced_sections : list string :=
  [ "[Events]"; "[TimingPoints]"; "[HitObjects]" ].

(** The shape of a section: the keys of a dictionary in their order, or the
    number of fields of each record of a list. *)
Definition shape_of (sec : section) : list string + list nat :=
  match sec with
  | SDict kv => inl (map fst kv)
  | SList rs => inr (map length rs)
  end.

(** [d'] has the sections of [d] in the same order, each with the same
    shape; an empty dictionary in the place of a section of records may have
    become an empty list. *)
Definition same_shape (d d' : document) : Prop :=
  map fst d' = map fst d /\
  forall h sec, dict_get h d = Some sec ->
    exists sec', dict_get h d' = Some sec' /\
      (shape_of sec' = shape_of sec \/
       In h replaced_sections /\ sec = SDict [] /\ sec' = SList []).

(** [d'] is [d] outside the assigned fields and the replaced sections. *)
Definition unchanged_outside (d d' : document) : Prop :=
  (forall h k, ~ In h replaced_sections -> ~ In (h, k) assigned_fields ->
               lookup_field d' h k = lookup_field d h k) /\
  (forall h, ~ In h replaced_sections -> ~ In h (map fst assigned_fields) ->
             get_section d' h = get_section d h).

(** ** Documents that the writer can write *)

Definition is_dict (d : document) (h : string) : bool :=
  match dict_get h d with Some (SDict _) => true | _ => false end.

Definition is_present (d : document) (h : string) : bool :=
  match dict_get h d with Some _ => true | None => false end.

(** The five key-value sections are dictionaries and the three sections of
    records are there. *)
Definition printable (d : document) : bool :=
  is_dict d "[General]" && is_dict d "[Editor]" && is_dict d "[Metadata]"
  && is_dict d "[Difficulty]" && is_present d "[Events]"
  && is_present d "[TimingPoints]" && is_dict d "[Colours]"
  && is_present d "[HitObjects]".

(** ** A small beatmap *)

Definition sample_text : string :=
  let nl := Str.newline in
  "osu file format v14" ++ nl ++ nl
  ++ "[General]" ++ nl ++ "AudioFilename: audio.mp3" ++ nl
  ++ "AudioLeadIn: 0" ++ nl ++ "PreviewTime: 4000" ++ nl ++ nl
  ++ "[Editor]" ++ nl ++ "Bookmarks: 1000,2000" ++ nl ++ nl
  ++ "[Metadata]" ++ nl ++ "Title:Okaerinasai" ++ nl ++ "Version:Collab" ++ nl
  ++ "Tags:" ++ nl ++ nl
  ++ "[Difficulty]" ++ nl ++ "ApproachRate:9" ++ nl
  ++ "OverallDifficulty:8" ++ nl ++ nl
  ++ "[Events]" ++ nl ++ "//Break Periods" ++ nl ++ "0,0,bg.jpg,0,0" ++ nl
  ++ "2,1000,2000" ++ nl ++ "Break,1000,2000" ++ nl ++ nl
  ++ "[TimingPoints]" ++ nl ++ "1000,500.0,4,1,0,60,1,0" ++ nl
  ++ "2000,-100,4,1,0,60,0,0" ++ nl ++ nl ++ nl
  ++ "[Colours]" ++ nl ++ "Combo1 : 255,0,0" ++ nl ++ nl
  ++ "[HitObjects]" ++ nl ++ "256,192,1000,1,0,0:0:0:0:" ++ nl
  ++ "256,192,2000,12,0,3000,0:0:0:0:".

Definition sample_document : document :=
  [ ("[General]", SDict [ ("AudioFilename", VStr "audio.mp3");
                          ("AudioLeadIn", VStr "0");
                          ("PreviewTime", VStr "4000") ]);
    ("[Editor]", SDict [ ("Bookmarks", VStr "1000,2000") ]);
    ("[Metadata]", SDict [ ("Title", VStr "Okaerinasai");
                           ("Version", VStr "Collab");
                           ("Tags", VStr "") ]);
    ("[Difficulty]", SDict [ ("ApproachRate", VStr "9");
                             ("OverallDifficulty", VStr "8") ]);
    ("[Events]", SList [ map VStr ["0"; "0"; "bg.jpg"; "0"; "0"];
                         map VStr ["2"; "1000"; "2000"];
                         map VStr ["Break"; "1000"; "2000"] ]);
    ("[TimingPoints]",
     SList [ map VStr ["1000"; "500.0"; "4"; "1"; "0"; "60"; "1"; "0"];
             map VStr ["2000"; "-100"; "4"; "1"; "0"; "60"; "0"; "0"] ]);
    ("[Colours]", SDict [ ("Combo1", VStr "255,0,0") ]);
    ("[HitObjects]",
     SList [ map VStr ["256"; "192"; "1000"; "1"; "0"; "0:0:0:0:"];
             map VStr ["256"; "192"; "2000"; "12"; "0"; "3000"; "0:0:0:0:"] ]) ].

(** The same beatmap with other difficulty settings. *)
Definition with_difficulty (ar od : string) : document :=
  dict_set "[Difficulty]"
    (SDict [ ("ApproachRate", VStr ar); ("OverallDifficulty", VStr od) ])
    sample_document.


(** The same beatmap with another audio file. *)
Definition with_audio (name : string) (d : document) : document :=
  match store_field d "[General]" "AudioFilename" (VStr name) with
  | Ok d' => d'
  | Err _ => d
  end.

(** A file whose audio file name holds the separator of its section, and
    one with an empty value between two separators. *)
Definition empty_sections : string :=
  let nl := Str.newline in
  nl ++ "[Editor]" ++ nl ++ nl ++ "[Metadata]" ++ nl ++ nl
  ++ "[Difficulty]" ++ nl ++ nl ++ "[Events]" ++ nl ++ nl
  ++ "[TimingPoints]" ++ nl ++ nl ++ nl ++ "[Colours]" ++ nl ++ nl
  ++ "[HitObjects]" ++ nl.

Definition odd_text : string :=
  let nl := Str.newline in
  "osu file format v14" ++ nl ++ nl
  ++ "[General]" ++ nl ++ "AudioFilename: a : b.mp3" ++ nl ++ empty_sections.

Definition odd_text_empty : string :=
  let nl := Str.newline in
  "osu file format v14" ++ nl ++ nl
  ++ "[General]" ++ nl ++ "AudioFilename: : b.mp3" ++ nl ++ empty_sections.

(** The run of the program's own settings: rate 1.3. *)
Definition sample_rate : number := PyFloat (13 # 10).

Definition sample_output : document :=
  Eval vm_compute in
    match speedup_osu_file decimal_repr sample_document sample_rate with
    | Ok (d, _) => d
    | Err _ => []
    end.

Definition sample_job : audio_job :=
  Eval vm_compute in
    match speedup_osu_file decimal_repr sample_document sample_rate with
    | Ok (_, job) => job
    | Err _ => AudioJob "" (PyInt 0) ""
    end.

(** * Properties *)

(** ** Results *)

Lemma bind_ok {A B : Type} (m : result A) (k : A -> result B) (b : B) :
  bind m k = Ok b -> exists a, m = Ok a /\ k a = Ok b.
Proof. destruct m as [a|e]; simpl; intros H; [eauto | discriminate]. Qed.

Lemma Ok_inj {A : Type} (a b : A) : Ok a = Ok b -> a = b.
Proof. intros H. now injection H. Qed.

Lemma bind_err {A B : Type} (m : result A) (k : A -> result B) (e : exn) :
  m = Err e -> bind m k = Err e.
Proof. intros ->. reflexivity. Qed.

Lemma bind_eq {A B : Type} (m : result A) (k : A -> result B) (a : A) :
  m = Ok a -> bind m k = k a.
Proof. intros ->. reflexivity. Qed.

(** Splits a hypothesis [x <- m ;; k = Ok b] into its two steps. *)
Ltac inv_bind H :=
  let a := fresh "a" in
  let Ha := fresh "Hstep" in
  apply bind_ok in H; destruct H as (a & Ha & H).

Ltac inv_ok H := injection H as H; try subst.


Lemma mapM_lookup {A B : Type} (f : A -> result B) (l : list A) (l' : list B)
      (i : nat) (a : A) :
  mapM f l = Ok l' -> l !! i = Some a ->
  exists b, l' !! i = Some b /\ f a = Ok b.
Proof.
  revert l' i. induction l as [|x l IH]; simpl; intros l' i H Hi.
  - discriminate.
  - inv_bind H. inv_bind H. inv_ok H. destruct i as [|i]; simpl in *.
    + inv_ok Hi. eauto.
    + eauto.
Qed.


(** ** Rounding *)

Lemma Qltb_lt (x y : Q) : Qltb x y = true <-> (x < y)%Q.
Proof.
  unfold Qltb. rewrite negb_true_iff. split; intros H.
  - apply Qnot_le_lt. intros Hle. apply Qle_bool_iff in Hle. congruence.
  - destruct (Qle_bool y x) eqn:E; [|reflexivity].
    apply Qle_bool_iff in E. apply Qle_not_lt in E. contradiction.
Qed.

Lemma Qltb_ge (x y : Q) : Qltb x y = false <-> (y <= x)%Q.
Proof.
  unfold Qltb. rewrite negb_false_iff. apply Qle_bool_iff.
Qed.

Lemma inject_Z_minus (x y : Z) : inject_Z (x - y) = (inject_Z x - inject_Z y)%Q.
Proof.
  unfold Z.sub. now rewrite inject_Z_plus, inject_Z_opp.
Qed.

Lemma round_half_even_comp (x y : Q) :
  (x == y)%Q -> round_half_even x = round_half_even y.
Proof.
  intros H. unfold round_half_even.
  rewrite (Qfloor_comp _ _ H).
  assert (E : (x - inject_Z (Qfloor y) == y - inject_Z (Qfloor y))%Q)
    by (rewrite H; reflexivity).
  now rewrite (Qcompare_comp _ _ E _ _ (Qeq_refl (1 # 2))).
Qed.

(** Rounding does not cross an integer. *)
Lemma round_le_Z (q : Q) (z : Z) :
  (q <= inject_Z z)%Q -> round_half_even q <= z.
Proof.
  intros H. unfold round_half_even.
  assert (Hf : Qfloor q <= z).
  { rewrite <- (Qfloor_Z z). now apply Qfloor_resp_le. }
  assert (Hfq := Qfloor_le q).
  assert (Hne : (1 # 2 <= q - inject_Z (Qfloor q))%Q -> Qfloor q + 1 <= z).
  { intros Hh. destruct (Z.eq_dec (Qfloor q) z) as [E|E]; [|lia].
    rewrite E in Hh. lra. }
  destruct (Qcompare_spec (q - inject_Z (Qfloor q)) (1 # 2)) as [E|E|E].
  - destruct (Z.even (Qfloor q)); [lia|]. apply Hne. rewrite E. lra.
  - lia.
  - apply Hne. lra.
Qed.

Lemma round_ge_Z (q : Q) (z : Z) :
  (inject_Z z <= q)%Q -> z <= round_half_even q.
Proof.
  intros H. unfold round_half_even.
  assert (Hf : z <= Qfloor q).
  { rewrite <- (Qfloor_Z z). now apply Qfloor_resp_le. }
  destruct (Qcompare (q - inject_Z (Qfloor q)) (1 # 2)); [|lia|lia].
  destruct (Z.even (Qfloor q)); lia.
Qed.

Lemma Qdiv_le_self (t r : Q) : (0 <= t -> 1 <= r -> 0 <= t / r <= t)%Q.
Proof.
  intros Ht Hr. assert (Hr0 : (0 < r)%Q) by lra. split.
  - apply Qle_shift_div_l; [auto|]. lra.
  - apply Qle_shift_div_r; [auto|]. nra.
Qed.





Lemma truediv_ok (a b x : number) :
  truediv a b = Ok x ->
  ~ (to_Q b == 0)%Q /\ x = PyFloat (Qred (to_Q a / to_Q b)).
Proof.
  unfold truediv. destruct (Qeq_bool (to_Q b) 0) eqn:E; [discriminate|].
  intros H. inv_ok H. split; [|reflexivity].
  intros Hb. apply Qeq_bool_iff in Hb. congruence.
Qed.

Lemma truediv_total (a b : number) :
  ~ (to_Q b == 0)%Q -> truediv a b = Ok (PyFloat (Qred (to_Q a / to_Q b))).
Proof.
  intros H. unfold truediv. destruct (Qeq_bool (to_Q b) 0) eqn:E; [|reflexivity].
  apply Qeq_bool_iff in E. contradiction.
Qed.

Lemma rescale_ok (v : value) (r : number) (t' : Z) :
  rescale v r = Ok t' <-> exists t, py_int v = Ok t /\ rescaled_time r t t'.
Proof.
  unfold rescale, rescaled_time. split.
  - intros H. inv_bind H. inv_bind H. inv_ok H.
    apply truediv_ok in Hstep0. destruct Hstep0 as [Hr ->].
    exists a. split_and!; auto. simpl. apply round_half_even_comp, Qred_correct.
  - intros (t & Ht & Hr & ->). rewrite Ht. simpl.
    rewrite truediv_total by auto. simpl. f_equal.
    apply round_half_even_comp, Qred_correct.
Qed.

(** ** Integer literals *)

Lemma has_char_lstrip (c : ascii) (s : string) :
  Str.is_space c = false -> has_char c s = true ->
  has_char c (Str.lstrip s) = true.
Proof.
  intros Hc. induction s as [|a s IH]; simpl; [auto|]. intros H.
  destruct (Str.is_space a) eqn:Ha.
  - apply IH. destruct (Ascii.eqb_spec a c) as [->|]; [congruence | exact H].
  - exact H.
Qed.

Lemma has_char_rstrip (c : ascii) (s : string) :
  Str.is_space c = false -> has_char c s = true ->
  has_char c (Str.rstrip s) = true.
Proof.
  intros Hc. induction s as [|a s IH]; simpl; [auto|]. intros H.
  destruct (Ascii.eqb_spec a c) as [->|Hne].
  - destruct (Str.rstrip s); [rewrite Hc|]; simpl; now rewrite Ascii.eqb_refl.
  - simpl in H. specialize (IH H). destruct (Str.rstrip s) eqn:E.
    + discriminate IH.
    + simpl. now rewrite orb_true_iff; right.
Qed.

Lemma has_char_strip (c : ascii) (s : string) :
  Str.is_space c = false -> has_char c s = true ->
  has_char c (Str.strip s) = true.
Proof.
  intros Hc H. unfold Str.strip. now apply has_char_rstrip, has_char_lstrip.
Qed.

(** What [digits_go] reads to the end holds digits and underscores only. *)
Lemma digits_go_all (s : string) (acc : Z) (count : nat) (v : Z) (m : nat)
      (c : ascii) :
  digits_go acc count s = (v, m, "") ->
  is_digit c = false -> Ascii.eqb c "_" = false -> has_char c s = false.
Proof.
  intros H Hd Hu. revert acc count H.
  induction s as [|a s IH]; simpl; intros acc count H; [reflexivity|].
  destruct (Ascii.eqb_spec a c) as [->|Hne]; simpl.
  - unfold is_digit in Hd. destruct (digit_of c); [discriminate|].
    rewrite Ascii.eqb_sym in Hu.
    destruct (Ascii.eqb_spec c "_") as [->|]; [discriminate|].
    discriminate H.
  - destruct (digit_of a).
    + eapply IH; eauto.
    + destruct (Ascii.eqb a "_"); [|discriminate H].
      destruct count; [discriminate H|].
      destruct s as [|c' s']; [discriminate H|].
      destruct (is_digit c'); [|discriminate H].
      eapply IH; eauto.
Qed.

(** A string with a decimal point is not an integer literal. *)
Lemma int_of_string_point (s : string) :
  has_char "." s = true -> int_of_string s = Err ValueError.
Proof.
  intros H. apply (has_char_strip "." s eq_refl) in H.
  unfold int_of_string. destruct (Str.strip s) as [|a b]; [discriminate|].
  unfold take_sign.
  assert (Hb : forall body, has_char "." body = true ->
     match digits_go 0 0 body with
     | (v, S _, EmptyString) => Ok v
     | _ => Err ValueError
     end = Err ValueError /\
     match digits_go 0 0 body with
     | (v, S _, EmptyString) => Ok (- v)
     | _ => Err ValueError
     end = Err ValueError).
  { intros body Hbody. destruct (digits_go 0 0 body) as [[v m] rest] eqn:E.
    destruct m; [auto|]. destruct rest; [|auto].
    apply digits_go_all with (c := "."%char) in E; [congruence| |]; reflexivity. }
  destruct (Ascii.eqb_spec a "-") as [->|Hm].
  - apply Hb. exact H.
  - destruct (Ascii.eqb_spec a "+") as [->|Hp].
    + apply Hb. exact H.
    + apply (Hb (String a b)). exact H.
Qed.

(** ** Appending, stripping, cutting *)

Lemma append_assoc (a b c : string) : (a ++ b) ++ c = a ++ b ++ c.
Proof. induction a as [|x a IH]; simpl; [reflexivity | now rewrite IH]. Qed.

Lemma append_nil_r (a : string) : a ++ "" = a.
Proof. induction a as [|x a IH]; simpl; [reflexivity | now rewrite IH]. Qed.

Lemma prefix_cons (a b : ascii) (s1 s2 : string) :
  String.prefix (String a s1) (String b s2) = Ascii.eqb a b && String.prefix s1 s2.
Proof.
  simpl. destruct (ascii_dec a b) as [->|Hne].
  - now rewrite Ascii.eqb_refl.
  - apply Ascii.eqb_neq in Hne. now rewrite Hne.
Qed.

Lemma prefix_nil_l (s : string) : String.prefix "" s = true.
Proof. now destruct s. Qed.

(** *** Stripping *)

Lemma lstrip_app (l x : string) :
  l <> "" -> Str.lstrip l = l -> Str.lstrip (l ++ x) = l ++ x.
Proof.
  destruct l as [|c l]; [congruence|]. intros _. simpl.
  destruct (Str.is_space c) eqn:E; [|reflexivity].
  intros H. exfalso.
  assert (Hlen : forall s, (String.length (Str.lstrip s) <= String.length s)%nat).
  { induction s as [|a s IH]; simpl; [lia|].
    destruct (Str.is_space a); simpl; lia. }
  specialize (Hlen l). rewrite H in Hlen. simpl in Hlen. lia.
Qed.

Lemma rstrip_app_newline (l : string) :
  Str.rstrip (l ++ Str.newline) = Str.rstrip l.
Proof.
  unfold Str.newline.
  induction l as [|c l IH]; simpl; [reflexivity|]. now rewrite IH.
Qed.

Lemma strip_line (l : string) :
  l <> "" -> Str.lstrip l = l -> Str.rstrip l = l ->
  Str.strip (l ++ Str.newline) = l.
Proof.
  intros Hne Hl Hr. unfold Str.strip.
  now rewrite lstrip_app, rstrip_app_newline.
Qed.

Lemma strip_last_line (l : string) :
  Str.lstrip l = l -> Str.rstrip l = l -> Str.strip l = l.
Proof. intros Hl Hr. unfold Str.strip. now rewrite Hl. Qed.

(** *** Lines *)

Lemma lines_line (l rest : string) :
  has_char Str.LF l = false -> has_char Str.CR l = false ->
  Str.lines (l ++ Str.newline ++ rest) = (l ++ Str.newline) :: Str.lines rest.
Proof.
  change (Str.newline ++ rest) with (String Str.LF rest).
  induction l as [|c l IH]; simpl; intros HL HC; [reflexivity|].
  apply orb_false_iff in HL, HC. destruct HL as [HL1 HL2], HC as [HC1 HC2].
  rewrite HL1, HC1. now rewrite IH.
Qed.

Lemma lines_last (l : string) :
  l <> "" -> has_char Str.LF l = false -> has_char Str.CR l = false ->
  Str.lines l = [l].
Proof.
  induction l as [|c l IH]; [congruence|]. intros _ HL HC. simpl in *.
  apply orb_false_iff in HL, HC. destruct HL as [HL1 HL2], HC as [HC1 HC2].
  rewrite HL1, HC1. destruct l as [|c' l']; [reflexivity|].
  now rewrite IH.
Qed.

(** *** Splitting *)

Lemma split_go_none (sep s : string) :
  Str.contains sep s = false -> Str.split_go sep 0 s = [s].
Proof.
  induction s as [|c s IH]; simpl; intros H; [reflexivity|].
  apply orb_false_iff in H. destruct H as [H1 H2].
  destruct sep as [|a sep].
  - discriminate H1.
  - simpl in H1. rewrite H1. now rewrite IH.
Qed.

Lemma contains_char (c : ascii) (s : string) :
  Str.contains (String c "") s = has_char c s.
Proof.
  induction s as [|a s IH]; [reflexivity|].
  cbn [Str.contains has_char]. rewrite prefix_cons, prefix_nil_l, andb_true_r, IH.
  now rewrite Ascii.eqb_sym.
Qed.

(** The three separators of the format cut [key ++ sep ++ v] at [sep]. *)
Lemma split_pair (sep key v : string) :
  is_separator sep ->
  has_char ":" key = false -> Str.contains sep v = false ->
  Str.split sep (key ++ sep ++ v) = [key; v].
Proof.
  intros Hsep Hk Hv. unfold Str.split.
  induction key as [|c key IH].
  - destruct Hsep as [->|[->| ->]]; simpl; rewrite prefix_nil_l;
      now rewrite split_go_none.
  - simpl in Hk. apply orb_false_iff in Hk. destruct Hk as [Hc Hk].
    specialize (IH Hk).
    assert (Hp : String.prefix sep (String c key ++ sep ++ v) = false).
    { destruct Hsep as [->|[->| ->]]; simpl String.append;
        rewrite prefix_cons.
      - rewrite Ascii.eqb_sym, Hc. reflexivity.
      - rewrite Ascii.eqb_sym, Hc. reflexivity.
      - destruct (Ascii.eqb " " c); [|reflexivity]. simpl andb.
        destruct key as [|c' key]; [reflexivity|].
        simpl in Hk. apply orb_false_iff in Hk. destruct Hk as [Hc' _].
        simpl String.append. rewrite prefix_cons, Ascii.eqb_sym, Hc'.
        reflexivity. }
    change (Str.split_go sep 0 (String c key ++ sep ++ v))
      with (if String.prefix sep (String c key ++ sep ++ v)
            then "" :: Str.split_go sep (String.length sep - 1) (key ++ sep ++ v)
            else Str.cons_head c (Str.split_go sep 0 (key ++ sep ++ v))).
    rewrite Hp, IH. reflexivity.
Qed.

Lemma split_go_comma_hit (x : string) :
  Str.split_go "," 0 (String "," x) = "" :: Str.split_go "," 0 x.
Proof. simpl. now rewrite prefix_nil_l. Qed.

Lemma split_go_comma_miss (c : ascii) (x : string) :
  Ascii.eqb c "," = false ->
  Str.split_go "," 0 (String c x) = Str.cons_head c (Str.split_go "," 0 x).
Proof.
  intros H.
  change (Str.split_go "," 0 (String c x))
    with (if String.prefix "," (String c x)
          then "" :: Str.split_go "," 0 x
          else Str.cons_head c (Str.split_go "," 0 x)).
  now rewrite prefix_cons, Ascii.eqb_sym, H.
Qed.

Lemma split_join (fields : list string) :
  fields <> [] ->
  forallb (fun f => negb (Str.contains "," f)) fields = true ->
  Str.split "," (Str.join "," fields) = fields.
Proof.
  unfold Str.split, Str.join.
  induction fields as [|f fields IH]; [congruence|]. intros _ H.
  simpl in H. apply andb_true_iff in H. destruct H as [Hf H].
  apply negb_true_iff in Hf.
  destruct fields as [|g fields].
  - simpl. now apply split_go_none.
  - assert (IH' := IH ltac:(discriminate) H). clear IH H.
    change (String.concat "," (f :: g :: fields))
      with (f ++ String "," (String.concat "," (g :: fields))).
    remember (String.concat "," (g :: fields)) as x eqn:Hx. clear Hx.
    rewrite contains_char in Hf.
    induction f as [|c f IHf].
    + simpl String.append. now rewrite split_go_comma_hit, IH'.
    + simpl in Hf. apply orb_false_iff in Hf. destruct Hf as [Hc Hf].
      simpl String.append. rewrite split_go_comma_miss by exact Hc.
      now rewrite IHf.
Qed.

(** ** Dictionaries *)

Lemma dict_get_set_eq {V : Type} (k : string) (v : V) (d : dict V) :
  dict_get k (dict_set k v d) = Some v.
Proof.
  induction d as [|[k' v'] d IH]; simpl.
  - now rewrite String.eqb_refl.
  - destruct (String.eqb k k') eqn:E; simpl; rewrite E; auto.
Qed.

Lemma dict_get_set_ne {V : Type} (k k' : string) (v : V) (d : dict V) :
  k <> k' -> dict_get k' (dict_set k v d) = dict_get k' d.
Proof.
  intros Hne. induction d as [|[k0 v0] d IH]; simpl.
  - destruct (String.eqb k' k) eqn:E; auto.
    apply String.eqb_eq in E. congruence.
  - destruct (String.eqb k k0) eqn:E; simpl.
    + apply String.eqb_eq in E. subst k0.
      destruct (String.eqb k' k) eqn:E'; auto.
      apply String.eqb_eq in E'. congruence.
    + destruct (String.eqb k' k0); auto.
Qed.

Lemma get_section_set_eq (d : document) (h : string) (sec : section) :
  get_section (dict_set h sec d) h = Ok sec.
Proof. unfold get_section. now rewrite dict_get_set_eq. Qed.

Lemma get_section_set_ne (d : document) (h h' : string) (sec : section) :
  h <> h' -> get_section (dict_set h sec d) h' = get_section d h'.
Proof. intros H. unfold get_section. now rewrite dict_get_set_ne. Qed.

Lemma lookup_field_set_ne (d : document) (h h' k : string) (sec : section) :
  h <> h' -> lookup_field (dict_set h sec d) h' k = lookup_field d h' k.
Proof. intros H. unfold lookup_field. now rewrite get_section_set_ne. Qed.

Lemma store_field_same (d d' : document) (h k : string) (v : value) :
  store_field d h k v = Ok d' -> lookup_field d' h k = Ok v.
Proof.
  unfold store_field, lookup_field. intros H.
  inv_bind H. inv_bind H. inv_ok H.
  rewrite get_section_set_eq. simpl.
  destruct a as [rs|kv]; simpl in Hstep0; [discriminate|]. inv_ok Hstep0.
  simpl. now rewrite dict_get_set_eq.
Qed.

Lemma store_field_other_key (d d' : document) (h k k' : string) (v : value) :
  store_field d h k v = Ok d' -> k <> k' ->
  lookup_field d' h k' = lookup_field d h k'.
Proof.
  unfold store_field, lookup_field. intros H Hne.
  inv_bind H. inv_bind H. inv_ok H.
  rewrite get_section_set_eq, Hstep. simpl.
  destruct a as [rs|kv]; simpl in Hstep0; [discriminate|]. inv_ok Hstep0.
  simpl. now rewrite dict_get_set_ne.
Qed.

Lemma store_field_other_section (d d' : document) (h h' k : string) (v : value) :
  store_field d h k v = Ok d' -> h <> h' ->
  get_section d' h' = get_section d h'.
Proof.
  unfold store_field. intros H Hne.
  inv_bind H. inv_bind H. inv_ok H. now apply get_section_set_ne.
Qed.

Lemma store_field_other (d d' : document) (h h' k k' : string) (v : value) :
  store_field d h k v = Ok d' -> h <> h' ->
  lookup_field d' h' k' = lookup_field d h' k'.
Proof.
  intros H Hne. unfold lookup_field.
  now rewrite (store_field_other_section _ _ _ _ _ _ H Hne).
Qed.


(** ** What the rate change stores *)

Ltac ne := let H := fresh in intros H; discriminate H.

Lemma has_key_lookup (d : document) (h k : string) (sec : section) :
  get_section d h = Ok sec ->
  has_key k sec = false -> forall v, lookup_field d h k <> Ok v.
Proof.
  intros Hs Hk v. unfold lookup_field. rewrite Hs. simpl.
  destruct sec as [rs|kv]; simpl in *; [discriminate|].
  destruct (dict_get k kv); simpl; discriminate.
Qed.

(** ** The three loop bodies *)

Lemma index_ok {A : Type} (l : list A) (i : nat) (a : A) :
  index l i = Ok a <-> l !! i = Some a.
Proof.
  unfold index. destruct (l !! i); simpl; split; intros H;
    try discriminate; congruence.
Qed.

Lemma insert_other {A : Type} (l : list A) (i j : nat) (x : A) :
  j <> i -> <[i := x]> l !! j = l !! j.
Proof. intros H. apply list_lookup_insert_ne. congruence. Qed.


(** An event either has both times rescaled, or only its start time. *)
Lemma adjust_event_inv (rate : number) (event new_event : list value) :
  adjust_event rate event = Ok new_event ->
  exists tag v1 t1,
    event !! 0%nat = Some tag /\ event !! 1%nat = Some v1 /\
    rescale v1 rate = Ok t1 /\
    if eq_int tag 2 || eq_str tag "Break"
    then exists v2 t2,
        event !! 2%nat = Some v2 /\ rescale v2 rate = Ok t2 /\
        new_event = <[2%nat := VNum (PyInt t2)]> (<[1%nat := VNum (PyInt t1)]> event)
    else new_event = <[1%nat := VNum (PyInt t1)]> event.
Proof.
  unfold adjust_event. intros H.
  inv_bind H. rename a into v1. inv_bind H. rename a into t1.
  inv_bind H. rename a into tag.
  apply index_ok in Hstep, Hstep1.
  exists tag, v1, t1. split_and!; auto.
  destruct (eq_int tag 2 || eq_str tag "Break").
  - inv_bind H. rename a into v2. inv_bind H. rename a into t2. inv_ok H.
    apply index_ok in Hstep2. exists v2, t2. auto.
  - inv_ok H. reflexivity.
Qed.



(** A timing point has its time rescaled, and its beat length divided
    when its flag is ["1"]. *)
Lemma adjust_timing_point_inv (rate : number) (tp new_tp : list value) :
  adjust_timing_point rate tp = Ok new_tp ->
  exists v0 t0 flag,
    tp !! 0%nat = Some v0 /\ rescale v0 rate = Ok t0 /\
    tp !! 6%nat = Some flag /\
    if eq_str flag "1"
    then exists v1 x y,
        tp !! 1%nat = Some v1 /\ py_float v1 = Ok x /\
        truediv (PyFloat x) rate = Ok y /\
        new_tp = <[1%nat := VNum y]> (<[0%nat := VNum (PyInt t0)]> tp)
    else new_tp = <[0%nat := VNum (PyInt t0)]> tp.
Proof.
  unfold adjust_timing_point. intros H.
  inv_bind H. rename a into v0. inv_bind H. rename a into t0.
  inv_bind H. rename a into flag.
  apply index_ok in Hstep, Hstep1.
  exists v0, t0, flag. split_and!; auto.
  destruct (eq_str flag "1").
  - inv_bind H. rename a into v1. inv_bind H. rename a into x.
    inv_bind H. rename a into y. inv_ok H.
    apply index_ok in Hstep2. exists v1, x, y. auto.
  - inv_ok H. reflexivity.
Qed.



(** A hit object has its time rescaled, and its end time when bit 3 of
    its type is set. *)
Lemma land_8_testbit (z : Z) : negb (Z.land z 8 =? 0) = Z.testbit z 3.
Proof.
  assert (H : Z.land z 8 = if Z.testbit z 3 then 8 else 0).
  { apply Z.bits_inj'. intros n Hn. rewrite Z.land_spec.
    change 8 with (2 ^ 3). rewrite Z.pow2_bits_eqb by lia.
    destruct (Z.eqb_spec 3 n) as [<-|Hne].
    - rewrite andb_true_r. destruct (Z.testbit z 3).
      + now rewrite Z.pow2_bits_eqb by lia.
      + now rewrite Z.bits_0.
    - rewrite andb_false_r. destruct (Z.testbit z 3).
      + rewrite Z.pow2_bits_eqb by lia. symmetry. now apply Z.eqb_neq.
      + now rewrite Z.bits_0. }
  rewrite H. now destruct (Z.testbit z 3).
Qed.

Lemma adjust_hit_object_inv (rate : number) (ho new_ho : list value) :
  adjust_hit_object rate ho = Ok new_ho ->
  exists v2 t2 v3 type,
    ho !! 2%nat = Some v2 /\ rescale v2 rate = Ok t2 /\
    ho !! 3%nat = Some v3 /\ py_int v3 = Ok type /\
    if Z.testbit type 3
    then exists v5 t5,
        ho !! 5%nat = Some v5 /\ rescale v5 rate = Ok t5 /\
        new_ho = <[5%nat := VNum (PyInt t5)]> (<[2%nat := VNum (PyInt t2)]> ho)
    else new_ho = <[2%nat := VNum (PyInt t2)]> ho.
Proof.
  unfold adjust_hit_object. intros H.
  inv_bind H. rename a into v2. inv_bind H. rename a into t2.
  inv_bind H. rename a into v3. inv_bind H. rename a into type.
  apply index_ok in Hstep, Hstep1.
  exists v2, t2, v3, type. split_and!; auto.
  rewrite land_8_testbit in H. destruct (Z.testbit type 3).
  - inv_bind H. rename a into v5. inv_bind H. rename a into t5. inv_ok H.
    apply index_ok in Hstep3. exists v5, t5. auto.
  - inv_ok H. reflexivity.
Qed.



(** ** Time stamps through the loop bodies *)









(** ** The difficulty settings *)

Lemma py_min10_le (x : number) : (to_Q (py_min10 x) <= 10)%Q.
Proof.
  unfold py_min10, num_lt. destruct (Qltb (to_Q (PyInt 10)) (to_Q x)) eqn:E.
  - simpl. apply Qle_refl.
  - apply Qltb_ge in E. exact E.
Qed.

Lemma py_min10_nonneg (x : number) :
  (0 <= to_Q x)%Q -> (0 <= to_Q (py_min10 x))%Q.
Proof.
  intros H. unfold py_min10. destruct (num_lt (PyInt 10) x); [|exact H].
  simpl. discriminate.
Qed.

Lemma py_round1_nonneg (x : number) :
  (0 <= to_Q x)%Q -> (0 <= to_Q (py_round1 x))%Q.
Proof.
  destruct x as [z|q]; simpl; intros H; [exact H|].
  rewrite Qred_correct.
  assert (Hr : 0 <= round_half_even (q * 10)).
  { apply round_ge_Z. change (inject_Z 0) with 0%Q. lra. }
  apply Qle_shift_div_l; [reflexivity|].
  rewrite Zle_Qle in Hr. change (inject_Z 0) with 0%Q in Hr. lra.
Qed.


(** At a rate of 1 or more a non-negative approach rate stays
    non-negative. *)
Lemma new_approach_rate_nonneg (ar : Z) (r n : number) :
  (1 <= to_Q r)%Q -> 0 <= ar -> new_approach_rate ar r = Ok n ->
  (0 <= to_Q n)%Q.
Proof.
  intros Hr Har. unfold new_approach_rate.
  set (preempt := if ar <? 5 then _ else _).
  assert (Hp : (to_Q preempt <= 1800)%Q).
  { unfold preempt. rewrite Zle_Qle in Har. change (inject_Z 0) with 0%Q in Har.
    destruct (Z.ltb_spec ar 5) as [H5|H5].
    - simpl. rewrite Qred_correct, inject_Z_mult, inject_Z_minus.
      change (inject_Z 600) with 600%Q. change (inject_Z 5) with 5%Q.
      unfold Qdiv. change (/ 5)%Q with (1 # 5)%Q. lra.
    - destruct (Z.gtb_spec ar 5) as [H5'|H5'].
      + simpl. rewrite Qred_correct, inject_Z_mult, inject_Z_minus.
        change (inject_Z 750) with 750%Q. change (inject_Z 5) with 5%Q.
        assert (5 < inject_Z ar)%Q
          by (change 5%Q with (inject_Z 5); rewrite <- Zlt_Qlt; lia).
        unfold Qdiv. change (/ 5)%Q with (1 # 5)%Q. lra.
      + simpl. discriminate. }
  intros H. inv_bind H. apply truediv_ok in Hstep. destruct Hstep as [Hr0 ->].
  unfold num_gt, num_lt in H. simpl in H.
  destruct (Qltb (inject_Z 1200) _) eqn:E1.
  - inv_ok H. simpl. apply Qltb_lt in E1. rewrite Qred_correct in E1.
    rewrite !Qred_correct.
    change (inject_Z 1200) with 1200%Q in E1.
    assert (Hpos : (0 < to_Q preempt)%Q).
    { destruct (Qlt_le_dec 0 (to_Q preempt)) as [|Hneg]; [assumption|].
      exfalso.
      assert (to_Q preempt / to_Q r <= 0)%Q.
      { apply Qle_shift_div_r; lra. }
      lra. }
    destruct (Qdiv_le_self (to_Q preempt) (to_Q r)) as [_ Hle]; [lra|auto|].
    set (x := (to_Q preempt / to_Q r)%Q) in *.
    unfold Qdiv. change (/ -120)%Q with (- (1 # 120))%Q. lra.
  - destruct (Qltb _ (inject_Z 1200)) eqn:E2.
    + inv_ok H. simpl. apply Qltb_lt in E2. rewrite Qred_correct in E2.
      rewrite !Qred_correct.
      change (inject_Z 1200) with 1200%Q in E2.
      set (x := (to_Q preempt / to_Q r)%Q) in *.
      unfold Qdiv. change (/ -150)%Q with (- (1 # 150))%Q. lra.
    + inv_ok H. simpl. discriminate.
Qed.

(** At a rate of 1 or more a non-negative overall difficulty stays
    non-negative. *)
Lemma new_overall_difficulty_nonneg (od : Z) (r n : number) :
  (1 <= to_Q r)%Q -> 0 <= od -> new_overall_difficulty od r = Ok n ->
  (0 <= to_Q n)%Q.
Proof.
  intros Hr Hod. unfold new_overall_difficulty. intros H.
  inv_bind H. apply truediv_ok in Hstep. destruct Hstep as [Hr0 ->].
  inv_ok H. simpl. rewrite !Qred_correct.
  rewrite inject_Z_minus, inject_Z_mult.
  change (inject_Z 80) with 80%Q. change (inject_Z 6) with 6%Q.
  rewrite Zle_Qle in Hod. change (inject_Z 0) with 0%Q in Hod.
  set (hw := (80 - 6 * inject_Z od)%Q).
  assert (Hhw : (hw <= 80)%Q) by (unfold hw; lra).
  assert (Hx : (hw / to_Q r <= 80)%Q).
  { destruct (Qlt_le_dec hw 0) as [Hneg|Hpos].
    - assert (hw / to_Q r <= 0)%Q by (apply Qle_shift_div_r; lra). lra.
    - destruct (Qdiv_le_self hw (to_Q r)); auto. lra. }
  set (x := (hw / to_Q r)%Q) in *.
  unfold Qdiv. change (/ -6)%Q with (- (1 # 6))%Q. lra.
Qed.

(** ** Headers the reader has never heard of *)

Lemma recognized_false (h : string) :
  recognized h = false ->
  String.eqb h "[General]" = false /\ String.eqb h "[Editor]" = false /\
  String.eqb h "[Metadata]" = false /\ String.eqb h "[Difficulty]" = false /\
  String.eqb h "[Events]" = false /\ String.eqb h "[TimingPoints]" = false /\
  String.eqb h "[Colours]" = false /\ String.eqb h "[HitObjects]" = false.
Proof.
  unfold recognized. simpl. rewrite !orb_false_iff. tauto.
Qed.

(** C5, amended. A line read as a header that is not one of the eight
    headers of the format is accepted: its section is a new, empty
    dictionary.  A data line that follows under it raises
    [AttributeError]. *)
Theorem unknown_section_accepted (st : reader) (raw raw' : string) :
  let h := Str.strip raw in
  let st' := Reader (dict_set h (SDict []) (osu_file_dict st)) true h in
  is_in_section st = false ->
  h <> "" -> Str.startswith "//" h = false -> recognized h = false ->
  read_line st raw = Ok st' /\
  (Str.strip raw' <> "" -> Str.startswith "//" (Str.strip raw') = false ->
   read_line st' raw' = Err AttributeError).
Proof.
  intros h st' Hin Hne Hc Hr.
  apply recognized_false in Hr.
  destruct Hr as (R1 & R2 & R3 & R4 & R5 & R6 & R7 & R8).
  apply String.eqb_neq in Hne. split.
  - unfold read_line. fold h. rewrite Hc, Hne, Hin. simpl.
    rewrite R5, R6, R8. reflexivity.
  - intros Hne' Hc'. apply String.eqb_neq in Hne'.
    unfold read_line. rewrite Hc', Hne'. simpl.
    rewrite R1, R2, R3, R4, R7. simpl.
    unfold append_record. simpl. now rewrite get_section_set_eq.
Qed.

(** ** Reading back what was written *)

Lemma clean_inv (l : string) :
  clean l = true ->
  l <> "" /\ has_char Str.LF l = false /\ has_char Str.CR l = false /\
  Str.lstrip l = l /\ Str.rstrip l = l /\ Str.startswith "//" l = false.
Proof.
  unfold clean. rewrite !andb_true_iff, !negb_true_iff.
  intros (((((H1 & H2) & H3) & H4) & H5) & H6).
  apply String.eqb_neq in H1. apply String.eqb_eq in H4, H5.
  split_and!; auto.
Qed.

Lemma dict_set_same {V : Type} (k : string) (v : V) (d : dict V) :
  dict_get k d = Some v -> dict_set k v d = d.
Proof.
  induction d as [|[k' v'] d IH]; simpl; [discriminate|].
  destruct (String.eqb k k') eqn:E.
  - intros H. inv_ok H. reflexivity.
  - intros H. now rewrite IH.
Qed.

Lemma dict_set_set {V : Type} (k : string) (v v' : V) (d : dict V) :
  dict_set k v' (dict_set k v d) = dict_set k v' d.
Proof.
  induction d as [|[k0 v0] d IH]; simpl.
  - now rewrite String.eqb_refl.
  - destruct (String.eqb k k0) eqn:E; simpl; rewrite E; [reflexivity|].
    now rewrite IH.
Qed.

Lemma dict_set_new {V : Type} (k : string) (v : V) (d : dict V) :
  existsb (String.eqb k) (map fst d) = false ->
  dict_set k v d = (d ++ [(k, v)])%list.
Proof.
  induction d as [|[k0 v0] d IH]; simpl; [reflexivity|].
  intros H. apply orb_false_iff in H. destruct H as [H1 H2].
  rewrite H1. now rewrite IH.
Qed.

Lemma read_loop_line (st : reader) (l rest : string) :
  has_char Str.LF l = false -> has_char Str.CR l = false ->
  read_loop st (Str.lines (l ++ Str.newline ++ rest))
  = (st' <- read_line st (l ++ Str.newline) ;; read_loop st' (Str.lines rest)).
Proof. intros HL HC. now rewrite lines_line. Qed.

Lemma read_line_blank (st : reader) :
  read_line st Str.newline
  = Ok (Reader (osu_file_dict st) false (current_header st)).
Proof. reflexivity. Qed.

Lemma read_loop_blank (st : reader) (rest : string) :
  read_loop st (Str.lines (Str.newline ++ rest))
  = read_loop (Reader (osu_file_dict st) false (current_header st))
              (Str.lines rest).
Proof.
  change (Str.newline ++ rest) with ("" ++ Str.newline ++ rest).
  rewrite read_loop_line by reflexivity. reflexivity.
Qed.

(** The line only counts stripped. *)
Lemma read_line_strip (st : reader) (raw line : string) :
  Str.strip raw = line -> clean line = true ->
  read_line st raw
  = if negb (is_in_section st) then
      if String.eqb line "[Events]" || String.eqb line "[TimingPoints]"
         || String.eqb line "[HitObjects]"
      then Ok (Reader (dict_set line (SList []) (osu_file_dict st)) true line)
      else Ok (Reader (dict_set line (SDict []) (osu_file_dict st)) true line)
    else
      let h := current_header st in
      if String.eqb h "[General]" || String.eqb h "[Editor]"
      then store_pair st (Str.split ": " line)
      else if String.eqb h "[Metadata]" || String.eqb h "[Difficulty]"
      then store_pair st (Str.split ":" line)
      else if String.eqb h "[Colours]"
      then store_pair st (Str.split " : " line)
      else append_record st (Str.split "," line).
Proof.
  intros Hs Hc. apply clean_inv in Hc. destruct Hc as (H1 & _ & _ & _ & _ & H6).
  apply String.eqb_neq in H1.
  unfold read_line. rewrite Hs, H6, H1. reflexivity.
Qed.

Lemma strip_clean_line (l : string) :
  clean l = true -> Str.strip (l ++ Str.newline) = l.
Proof.
  intros H. apply clean_inv in H. destruct H as (H1 & _ & _ & H4 & H5 & _).
  now apply strip_line.
Qed.

Lemma strip_clean (l : string) : clean l = true -> Str.strip l = l.
Proof.
  intros H. apply clean_inv in H. destruct H as (_ & _ & _ & H4 & H5 & _).
  now apply strip_last_line.
Qed.


Lemma pair_header_separator (h sep : string) :
  pair_header h sep -> is_separator sep.
Proof. unfold pair_header, is_separator. tauto. Qed.

Lemma read_pair_line (d : document) (h sep raw key v : string)
      (acc : dict value) :
  pair_header h sep ->
  Str.strip raw = key ++ sep ++ v -> pair_ok sep key v = true ->
  get_section d h = Ok (SDict acc) ->
  read_line (Reader d true h) raw
  = Ok (Reader (dict_set h (SDict (dict_set key (VStr v) acc)) d) true h).
Proof.
  intros Hh Hs Hok Hd. unfold pair_ok in Hok.
  rewrite !andb_true_iff, !negb_true_iff in Hok. destruct Hok as [[Hc Hk] Hv].
  rewrite (read_line_strip _ _ _ Hs Hc). simpl negb. cbv iota. simpl current_header.
  assert (Hsplit : Str.split sep (key ++ sep ++ v) = [key; v])
    by (apply split_pair; eauto using pair_header_separator).
  assert (Hstore : store_pair (Reader d true h) [key; v]
                   = Ok (Reader (dict_set h (SDict (dict_set key (VStr v) acc)) d)
                                true h)).
  { unfold store_pair. simpl. rewrite Hd. reflexivity. }
  destruct Hh as [[[-> | ->] ->] | [[[-> | ->] ->] | [-> ->]]];
    simpl in Hsplit |- *; rewrite Hsplit; exact Hstore.
Qed.

Lemma read_record_line (d : document) (h raw : string) (fields : list string)
      (acc : list (list value)) :
  list_header h ->
  Str.strip raw = Str.join "," fields ->
  clean (Str.join "," fields) = true -> fields <> [] ->
  forallb (fun f => negb (Str.contains "," f)) fields = true ->
  get_section d h = Ok (SList acc) ->
  read_line (Reader d true h) raw
  = Ok (Reader (dict_set h (SList (acc ++ [map VStr fields])%list) d) true h).
Proof.
  intros Hh Hs Hc Hne Hf Hd.
  rewrite (read_line_strip _ _ _ Hs Hc). simpl negb. cbv iota. simpl current_header.
  rewrite split_join by assumption.
  assert (Happ : append_record (Reader d true h) fields
                 = Ok (Reader (dict_set h (SList (acc ++ [map VStr fields])%list) d)
                              true h)).
  { unfold append_record. simpl. rewrite Hd. reflexivity. }
  destruct Hh as [-> | [-> | ->]]; simpl; exact Happ.
Qed.

Lemma read_header_line (st : reader) (h : string) :
  is_in_section st = false -> clean h = true ->
  read_line st (h ++ Str.newline)
  = Ok (Reader (dict_set h
                  (if String.eqb h "[Events]" || String.eqb h "[TimingPoints]"
                      || String.eqb h "[HitObjects]"
                   then SList [] else SDict [])
                  (osu_file_dict st)) true h).
Proof.
  intros Hin Hc. rewrite (read_line_strip _ _ h (strip_clean_line _ Hc) Hc).
  rewrite Hin. simpl negb. cbv iota.
  now destruct (String.eqb h "[Events]" || String.eqb h "[TimingPoints]"
                || String.eqb h "[HitObjects]").
Qed.

Lemma concat_empty_cons (x : string) (xs : list string) :
  String.concat "" (x :: xs) = x ++ String.concat "" xs.
Proof.
  destruct xs as [|y xs]; simpl; [now rewrite append_nil_r | reflexivity].
Qed.

Lemma nodupb_middle (l1 l2 : list string) (k : string) :
  nodupb (l1 ++ k :: l2)%list = true -> existsb (String.eqb k) l1 = false.
Proof.
  induction l1 as [|a l1 IH]; simpl; [reflexivity|].
  rewrite andb_true_iff, negb_true_iff, existsb_app. simpl.
  rewrite !orb_false_iff. intros [(_ & Ha & _) H].
  rewrite String.eqb_sym, Ha. simpl. auto.
Qed.

Lemma forallb_map {A B : Type} (f : B -> bool) (g : A -> B) (l : list A) :
  forallb f (map g l) = forallb (fun x => f (g x)) l.
Proof. induction l as [|a l IH]; simpl; [reflexivity | now rewrite IH]. Qed.

Section ReadBack.

Variable float_repr : Q -> string.

(** The pairs of a section, read under its header. *)
Lemma read_pairs (h sep : string) (kv : dict value) :
  pair_header h sep ->
  forall (acc : dict value) (d : document) (rest : string),
    get_section d h = Ok (SDict acc) ->
    forallb (fun '(key, v) => pair_ok sep key (py_str float_repr v)) kv = true ->
    nodupb (map fst acc ++ map fst kv)%list = true ->
    read_loop (Reader d true h)
              (Str.lines (write_pairs float_repr sep kv ++ rest))
    = read_loop (Reader (dict_set h (SDict (acc ++ pairs_as_read float_repr kv)%list) d) true h)
                (Str.lines rest).
Proof.
  intros Hh. induction kv as [|[key v] kv IH]; intros acc d rest Hd Hok Hnd.
  - simpl. rewrite app_nil_r. rewrite dict_set_same; [reflexivity|].
    unfold get_section in Hd. destruct (dict_get h d); simpl in Hd; congruence.
  - simpl in Hok. apply andb_true_iff in Hok. destruct Hok as [Hp Hok].
    unfold write_pairs. rewrite map_cons, concat_empty_cons.
    fold (write_pairs float_repr sep kv).
    rewrite !append_assoc.
    replace (key ++ sep ++ py_str float_repr v ++ Str.newline
             ++ write_pairs float_repr sep kv ++ rest)
      with ((key ++ sep ++ py_str float_repr v) ++ Str.newline
            ++ write_pairs float_repr sep kv ++ rest)
      by now rewrite !append_assoc.
    assert (Hc : clean (key ++ sep ++ py_str float_repr v) = true).
    { unfold pair_ok in Hp. rewrite !andb_true_iff in Hp. tauto. }
    pose proof (clean_inv _ Hc) as (_ & HL & HC & _).
    rewrite read_loop_line by assumption.
    rewrite (read_pair_line d h sep _ key (py_str float_repr v) acc Hh
               (strip_clean_line _ Hc) Hp Hd).
    simpl bind.
    simpl map in Hnd. pose proof (nodupb_middle _ _ _ Hnd) as Hnew.
    rewrite (dict_set_new key (VStr (py_str float_repr v)) acc Hnew).
    rewrite (IH (acc ++ [(key, VStr (py_str float_repr v))])%list); auto.
    + rewrite dict_set_set. simpl. now rewrite <- app_assoc.
    + apply get_section_set_eq.
    + rewrite map_app. simpl. now rewrite <- app_assoc.
Qed.

(** The records of a section, read under its header. *)
Lemma read_records (h : string) (rs : list (list value)) :
  list_header h ->
  forall (acc : list (list value)) (d : document) (rest : string),
    get_section d h = Ok (SList acc) ->
    forallb (record_ok float_repr) rs = true ->
    read_loop (Reader d true h)
              (Str.lines (write_records (record_lines float_repr (SList rs))
                          ++ rest))
    = read_loop (Reader (dict_set h (SList (acc ++ records_as_read float_repr rs)%list) d) true h)
                (Str.lines rest).
Proof.
  intros Hh. induction rs as [|r rs IH]; intros acc d rest Hd Hok.
  - simpl. rewrite app_nil_r. rewrite dict_set_same; [reflexivity|].
    unfold get_section in Hd. destruct (dict_get h d); simpl in Hd; congruence.
  - simpl in Hok. apply andb_true_iff in Hok. destruct Hok as [Hr Hok].
    unfold write_records. simpl record_lines. rewrite map_cons, concat_empty_cons.
    fold (write_records (record_lines float_repr (SList rs))).
    rewrite !append_assoc.
    assert (Hne : r <> []) by (destruct r; [discriminate | congruence]).
    assert (Hr' : clean (Str.join "," (map (py_str float_repr) r)) = true /\
                  forallb (fun f => negb (Str.contains "," (py_str float_repr f))) r = true).
    { destruct r; [discriminate|]. unfold record_ok in Hr.
      now apply andb_true_iff in Hr. }
    destruct Hr' as [Hc Hf].
    pose proof (clean_inv _ Hc) as (_ & HL & HC & _).
    rewrite read_loop_line by assumption.
    rewrite (read_record_line d h _ (map (py_str float_repr) r) acc Hh
               (strip_clean_line _ Hc) Hc).
    + simpl bind.
      rewrite (IH (acc ++ [map VStr (map (py_str float_repr) r)])%list); auto.
      * rewrite dict_set_set. simpl. rewrite <- app_assoc. simpl.
        now rewrite map_map.
      * apply get_section_set_eq.
    + destruct r; [congruence | discriminate].
    + now rewrite forallb_map.
    + exact Hd.
Qed.

(** The last section, whose last line has no terminator. *)
Lemma read_hit_objects (rs : list (list value)) :
  forall (acc : list (list value)) (d : document),
    get_section d "[HitObjects]" = Ok (SList acc) ->
    forallb (record_ok float_repr) rs = true ->
    read_loop (Reader d true "[HitObjects]")
              (Str.lines (write_hit_objects (record_lines float_repr (SList rs))))
    = Ok (Reader (dict_set "[HitObjects]" (SList (acc ++ records_as_read float_repr rs)%list) d)
                 true "[HitObjects]").
Proof.
  induction rs as [|r rs IH]; intros acc d Hd Hok.
  - simpl. rewrite app_nil_r. rewrite dict_set_same; [reflexivity|].
    unfold get_section in Hd. destruct (dict_get _ d); simpl in Hd; congruence.
  - simpl in Hok. apply andb_true_iff in Hok. destruct Hok as [Hr Hok].
    assert (Hne : map (py_str float_repr) r <> [])
      by (destruct r; [discriminate | discriminate]).
    assert (Hr' : clean (Str.join "," (map (py_str float_repr) r)) = true /\
                  forallb (fun f => negb (Str.contains "," (py_str float_repr f))) r = true).
    { destruct r; [discriminate|]. unfold record_ok in Hr.
      now apply andb_true_iff in Hr. }
    destruct Hr' as [Hc Hf].
    pose proof (clean_inv _ Hc) as (Hnz & HL & HC & _).
    assert (Hf' : forallb (fun f => negb (Str.contains "," f)) (map (py_str float_repr) r) = true)
      by now rewrite forallb_map.
    destruct rs as [|r' rs].
    + simpl. rewrite lines_last by assumption. simpl read_loop.
      rewrite (read_record_line d "[HitObjects]" _ (map (py_str float_repr) r) acc
                 (or_intror (or_intror eq_refl)) (strip_clean _ Hc) Hc Hne Hf' Hd).
      simpl. now rewrite map_map.
    + change (write_hit_objects (record_lines float_repr (SList (r :: r' :: rs))))
        with (Str.join "," (map (py_str float_repr) r) ++ Str.newline
              ++ write_hit_objects (record_lines float_repr (SList (r' :: rs)))).
      rewrite read_loop_line by assumption.
      rewrite (read_record_line d "[HitObjects]" _ (map (py_str float_repr) r) acc
                 (or_intror (or_intror eq_refl)) (strip_clean_line _ Hc) Hc Hne Hf' Hd).
      simpl bind.
      rewrite (IH (acc ++ [map VStr (map (py_str float_repr) r)])%list); auto.
      * rewrite dict_set_set. rewrite <- app_assoc. simpl. now rewrite map_map.
      * apply get_section_set_eq.
Qed.


Lemma pair_header_clean (h sep : string) : pair_header h sep -> clean h = true.
Proof.
  intros [[[-> | ->] _] | [[[-> | ->] _] | [-> _]]]; reflexivity.
Qed.

Lemma list_header_clean (h : string) : list_header h -> clean h = true.
Proof. intros [-> | [-> | ->]]; reflexivity. Qed.

Lemma read_loop_pair_header (st : reader) (h sep rest : string) :
  is_in_section st = false -> pair_header h sep ->
  read_loop st (Str.lines (h ++ Str.newline ++ rest))
  = read_loop (Reader (dict_set h (SDict []) (osu_file_dict st)) true h)
              (Str.lines rest).
Proof.
  intros Hin Hh. pose proof (pair_header_clean _ _ Hh) as Hc.
  pose proof (clean_inv _ Hc) as (_ & HL & HC & _).
  rewrite read_loop_line, read_header_line by assumption.
  destruct Hh as [[[-> | ->] _] | [[[-> | ->] _] | [-> _]]]; reflexivity.
Qed.

Lemma read_loop_list_header (st : reader) (h rest : string) :
  is_in_section st = false -> list_header h ->
  read_loop st (Str.lines (h ++ Str.newline ++ rest))
  = read_loop (Reader (dict_set h (SList []) (osu_file_dict st)) true h)
              (Str.lines rest).
Proof.
  intros Hin Hh. pose proof (list_header_clean _ Hh) as Hc.
  pose proof (clean_inv _ Hc) as (_ & HL & HC & _).
  rewrite read_loop_line, read_header_line by assumption.
  destruct Hh as [-> | [-> | ->]]; reflexivity.
Qed.

(** A whole key-value section: header, pairs, empty line. *)
Lemma read_pair_section (st : reader) (h sep : string) (kv : dict value)
      (rest : string) :
  is_in_section st = false -> pair_header h sep ->
  pairs_ok float_repr sep kv = true ->
  read_loop st (Str.lines (h ++ Str.newline ++ write_pairs float_repr sep kv
                           ++ Str.newline ++ rest))
  = read_loop (Reader (dict_set h (SDict (pairs_as_read float_repr kv)) (osu_file_dict st))
                      false h)
              (Str.lines rest).
Proof.
  intros Hin Hh Hok. unfold pairs_ok in Hok. apply andb_true_iff in Hok.
  destruct Hok as [Hnd Hok].
  rewrite (read_loop_pair_header st h sep) by assumption.
  rewrite (read_pairs h sep kv Hh []); auto using get_section_set_eq.
  rewrite read_loop_blank. cbn [osu_file_dict current_header app].
  now rewrite dict_set_set.
Qed.

(** A whole section of records: header, records, empty line. *)
Lemma read_list_section (st : reader) (h : string) (rs : list (list value))
      (rest : string) :
  is_in_section st = false -> list_header h ->
  forallb (record_ok float_repr) rs = true ->
  read_loop st (Str.lines (h ++ Str.newline
                           ++ write_records (record_lines float_repr (SList rs))
                           ++ Str.newline ++ rest))
  = read_loop (Reader (dict_set h (SList (records_as_read float_repr rs)) (osu_file_dict st))
                      false h)
              (Str.lines rest).
Proof.
  intros Hin Hh Hok.
  rewrite (read_loop_list_header st h) by assumption.
  rewrite (read_records h rs Hh []); auto using get_section_set_eq.
  rewrite read_loop_blank. cbn [osu_file_dict current_header app].
  now rewrite dict_set_set.
Qed.

(** The last section: header and records, no empty line. *)
Lemma read_last_section (st : reader) (rs : list (list value)) :
  is_in_section st = false ->
  forallb (record_ok float_repr) rs = true ->
  read_loop st (Str.lines ("[HitObjects]" ++ Str.newline
                           ++ write_hit_objects
                                (record_lines float_repr (SList rs))))
  = Ok (Reader (dict_set "[HitObjects]" (SList (records_as_read float_repr rs))
                         (osu_file_dict st))
               true "[HitObjects]").
Proof.
  intros Hin Hok.
  rewrite (read_loop_list_header st "[HitObjects]")
    by (auto; right; right; reflexivity).
  rewrite (read_hit_objects rs []); auto using get_section_set_eq.
  cbn [app]. now rewrite dict_set_set.
Qed.

Lemma write_pairs_as_read (sep : string) (kv : dict value) :
  write_pairs float_repr sep (pairs_as_read float_repr kv) = write_pairs float_repr sep kv.
Proof.
  unfold write_pairs, pairs_as_read. rewrite map_map. f_equal.
  apply map_ext. now intros [key v].
Qed.

Lemma record_lines_as_read (rs : list (list value)) :
  record_lines float_repr (SList (records_as_read float_repr rs))
  = record_lines float_repr (SList rs).
Proof.
  unfold record_lines, records_as_read. rewrite map_map.
  apply map_ext. intros r. now rewrite map_map.
Qed.

Lemma dict_section_ok_inv (sep : string) (d : document) (h : string) :
  dict_section_ok float_repr sep d h = true ->
  exists kv, dict_get h d = Some (SDict kv) /\ pairs_ok float_repr sep kv = true.
Proof.
  unfold dict_section_ok. destruct (dict_get h d) as [[rs|kv]|]; try discriminate.
  eauto.
Qed.

Lemma list_section_ok_inv (d : document) (h : string) :
  list_section_ok float_repr d h = true ->
  exists rs, dict_get h d = Some (SList rs)
             /\ forallb (record_ok float_repr) rs = true.
Proof.
  unfold list_section_ok. destruct (dict_get h d) as [[rs|kv]|]; try discriminate.
  eauto.
Qed.

(** The eight sections of a writable document, and what is read back. *)
Lemma writable_inv (d : document) :
  writable float_repr d = true ->
  exists general editor metadata difficulty events timing_points colours
         hit_objects,
    (dict_get "[General]" d = Some (SDict general) /\
     dict_get "[Editor]" d = Some (SDict editor) /\
     dict_get "[Metadata]" d = Some (SDict metadata) /\
     dict_get "[Difficulty]" d = Some (SDict difficulty) /\
     dict_get "[Events]" d = Some (SList events) /\
     dict_get "[TimingPoints]" d = Some (SList timing_points) /\
     dict_get "[Colours]" d = Some (SDict colours) /\
     dict_get "[HitObjects]" d = Some (SList hit_objects)) /\
    (pairs_ok float_repr ": " general = true /\
     pairs_ok float_repr ": " editor = true /\
     pairs_ok float_repr ":" metadata = true /\
     pairs_ok float_repr ":" difficulty = true /\
     forallb (record_ok float_repr) events = true /\
     forallb (record_ok float_repr) timing_points = true /\
     pairs_ok float_repr " : " colours = true /\
     forallb (record_ok float_repr) hit_objects = true) /\
    reread float_repr d
    = [("[General]", SDict (pairs_as_read float_repr general));
       ("[Editor]", SDict (pairs_as_read float_repr editor));
       ("[Metadata]", SDict (pairs_as_read float_repr metadata));
       ("[Difficulty]", SDict (pairs_as_read float_repr difficulty));
       ("[Events]", SList (records_as_read float_repr events));
       ("[TimingPoints]", SList (records_as_read float_repr timing_points));
       ("[Colours]", SDict (pairs_as_read float_repr colours));
       ("[HitObjects]", SList (records_as_read float_repr hit_objects))].
Proof.
  unfold writable. rewrite !andb_true_iff.
  intros [[[[[[[H1 H2] H3] H4] H5] H6] H7] H8].
  apply dict_section_ok_inv in H1, H2, H3, H4, H7.
  apply list_section_ok_inv in H5, H6, H8.
  destruct H1 as (general & G1 & K1), H2 as (editor & G2 & K2),
           H3 as (metadata & G3 & K3), H4 as (difficulty & G4 & K4),
           H5 as (events & G5 & K5), H6 as (timing_points & G6 & K6),
           H7 as (colours & G7 & K7), H8 as (hit_objects & G8 & K8).
  exists general, editor, metadata, difficulty, events, timing_points, colours,
    hit_objects.
  split_and!; auto.
  unfold reread. simpl flat_map.
  rewrite G1, G2, G3, G4, G5, G6, G7, G8. reflexivity.
Qed.

(** The text written for a writable document, read back. *)
Lemma read_written_text (d : document) (text : string) :
  writable float_repr d = true ->
  convert_dict_to_file float_repr d = Ok text ->
  convert_file_to_dict text = Ok (reread float_repr d).
Proof.
  intros H. apply writable_inv in H.
  destruct H as (general & editor & metadata & difficulty & events
                 & timing_points & colours & hit_objects
                 & (G1 & G2 & G3 & G4 & G5 & G6 & G7 & G8)
                 & (K1 & K2 & K3 & K4 & K5 & K6 & K7 & K8) & Hread).
  unfold convert_dict_to_file, get_section.
  rewrite G1, G2, G3, G4, G5, G6, G7, G8.
  cbn [of_option bind items]. intros Ht. apply Ok_inj in Ht. subst text.
  unfold convert_file_to_dict.
  rewrite lines_line by reflexivity. cbn [tail].
  rewrite read_loop_blank. cbn [osu_file_dict current_header].
  rewrite (read_pair_section _ "[General]" ": ");
    [|reflexivity|left; auto|exact K1].
  rewrite (read_pair_section _ "[Editor]" ": ");
    [|reflexivity|left; auto|exact K2].
  rewrite (read_pair_section _ "[Metadata]" ":");
    [|reflexivity|right; left; auto|exact K3].
  rewrite (read_pair_section _ "[Difficulty]" ":");
    [|reflexivity|right; left; auto|exact K4].
  rewrite (read_list_section _ "[Events]");
    [|reflexivity|left; auto|exact K5].
  rewrite (read_list_section _ "[TimingPoints]");
    [|reflexivity|right; left; auto|exact K6].
  rewrite read_loop_blank. cbn [osu_file_dict current_header].
  rewrite (read_pair_section _ "[Colours]" " : ");
    [|reflexivity|right; right; auto|exact K7].
  rewrite read_last_section; [|reflexivity|exact K8].
  rewrite Hread. reflexivity.
Qed.

(** C7, amended. The text written for a writable document is read back
    as that document with its values as strings, and written again as the
    same text, byte for byte. *)
Theorem write_read_write (d : document) :
  writable float_repr d = true ->
  exists text,
    convert_dict_to_file float_repr d = Ok text /\
    convert_file_to_dict text = Ok (reread float_repr d) /\
    convert_dict_to_file float_repr (reread float_repr d) = Ok text.
Proof.
  intros Hw. pose proof (read_written_text d) as Hread.
  pose proof (writable_inv d Hw)
    as (general & editor & metadata & difficulty & events
        & timing_points & colours & hit_objects
        & (G1 & G2 & G3 & G4 & G5 & G6 & G7 & G8) & _ & Hre).
  assert (Hwrite : exists text, convert_dict_to_file float_repr d = Ok text).
  { unfold convert_dict_to_file, get_section.
    rewrite G1, G2, G3, G4, G5, G6, G7, G8. cbn [of_option bind items]. eauto. }
  destruct Hwrite as [text Ht]. exists text. split_and!; auto.
  rewrite <- Ht, Hre. unfold convert_dict_to_file, get_section.
  rewrite G1, G2, G3, G4, G5, G6, G7, G8.
  cbn [dict_get String.eqb Ascii.eqb Bool.eqb of_option bind items].
  rewrite !write_pairs_as_read, !record_lines_as_read. reflexivity.
Qed.

Lemma dict_get_pairs_as_read (k : string) (kv : dict value) (v : value) :
  dict_get k kv = Some v ->
  dict_get k (pairs_as_read float_repr kv) = Some (VStr (py_str float_repr v)).
Proof.
  induction kv as [|[k' v'] kv IH]; simpl; [discriminate|].
  destruct (String.eqb k k'); [|exact IH]. intros H. now inv_ok H.
Qed.

End ReadBack.

(** ** Runs that return *)












Section Transform.

Variable float_repr : Q -> string.

Lemma adjust_bookmarks_spec (d d' : document) (r : number) :
  adjust_bookmarks d r = Ok d' ->
  (forall h, h <> "[Editor]" -> get_section d' h = get_section d h) /\
  (forall v, lookup_field d "[Editor]" "Bookmarks" = Ok v ->
     exists s ts, v = VStr s /\
       mapM (fun b => rescale (VStr b) r) (Str.split "," s) = Ok ts /\
       lookup_field d' "[Editor]" "Bookmarks"
       = Ok (VStr (Str.join "," (map string_of_Z ts)))).
Proof.
  unfold adjust_bookmarks. intros H. inv_bind H.
  destruct (has_key "Bookmarks" a) eqn:Hk.
  - inv_bind H. destruct a0 as [s|n]; [|discriminate]. inv_bind H.
    split.
    + intros h Hh. eapply store_field_other_section; eauto.
    + intros v Hv. unfold lookup_field in Hv. rewrite Hstep in Hv. simpl in Hv.
      rewrite Hstep0 in Hv. inv_ok Hv. exists s, a0. repeat split; auto.
      eapply store_field_same; eauto.
  - inv_ok H. split; [auto|]. intros v Hv.
    exfalso. eapply has_key_lookup; eauto.
Qed.

Lemma rescale_document_spec (d d' : document) (r : number) :
  rescale_document d r = Ok d' ->
  rescaled r d d' /\
  get_section d' "[Metadata]" = get_section d "[Metadata]" /\
  get_section d' "[Colours]" = get_section d "[Colours]" /\
  lookup_field d' "[General]" "AudioFilename"
  = lookup_field d "[General]" "AudioFilename".
Proof.
  unfold rescale_document. intros H.
  inv_bind H. rename a into v1, Hstep into L1.
  inv_bind H. rename a into t1, Hstep into R1.
  inv_bind H. rename a into d1, Hstep into S1.
  inv_bind H. rename a into v2, Hstep into L2.
  inv_bind H. rename a into t2, Hstep into R2.
  inv_bind H. rename a into d2, Hstep into S2.
  inv_bind H. rename a into d3, Hstep into B3.
  inv_bind H. rename a into v4, Hstep into L4.
  inv_bind H. rename a into ar, Hstep into I4.
  inv_bind H. rename a into n4, Hstep into N4.
  inv_bind H. rename a into d4, Hstep into S4.
  inv_bind H. rename a into v5, Hstep into L5.
  inv_bind H. rename a into od, Hstep into I5.
  inv_bind H. rename a into n5, Hstep into N5.
  inv_bind H. rename a into d5, Hstep into S5.
  inv_bind H. rename a into ev, Hstep into G6.
  inv_bind H. rename a into evs, Hstep into F6.
  inv_bind H. rename a into tp, Hstep into G7.
  inv_bind H. rename a into tps, Hstep into F7.
  inv_bind H. rename a into ho, Hstep into G8.
  inv_bind H. rename a into hos, Hstep into F8.
  inv_ok H.
  apply adjust_bookmarks_spec in B3. destruct B3 as [B3 B3'].
  (* sections of the intermediate documents, back to [d] *)
  assert (E1 : forall h, h <> "[General]" -> get_section d1 h = get_section d h)
    by (intros; eapply store_field_other_section; eauto).
  assert (E2 : forall h, h <> "[General]" -> get_section d2 h = get_section d h)
    by (intros h Hh; rewrite <- E1 by auto;
        eapply store_field_other_section; eauto).
  assert (E3 : forall h, h <> "[General]" -> h <> "[Editor]" ->
                         get_section d3 h = get_section d h)
    by (intros h Hh Hh'; rewrite <- E2 by auto; auto).
  assert (E4 : forall h, h <> "[General]" -> h <> "[Editor]" ->
                         h <> "[Difficulty]" ->
                         get_section d4 h = get_section d h)
    by (intros h Hh Hh' Hh''; rewrite <- E3 by auto;
        eapply store_field_other_section; eauto).
  assert (E5 : forall h, h <> "[General]" -> h <> "[Editor]" ->
                         h <> "[Difficulty]" ->
                         get_section d5 h = get_section d h)
    by (intros h Hh Hh' Hh''; rewrite <- E4 by auto;
        eapply store_field_other_section; eauto).
  (* the final document, back to [d5] *)
  set (d6 := dict_set "[Events]" (SList evs) d5) in *.
  set (d7 := dict_set "[TimingPoints]" (SList tps) d6) in *.
  set (d8 := dict_set "[HitObjects]" (SList hos) d7).
  assert (E8 : forall h, h <> "[Events]" -> h <> "[TimingPoints]" ->
                         h <> "[HitObjects]" ->
                         get_section d8 h = get_section d5 h).
  { intros h H1 H2 H3. unfold d8, d7, d6.
    rewrite !get_section_set_ne by auto. reflexivity. }
  assert (F8' : forall h k, h <> "[Events]" -> h <> "[TimingPoints]" ->
                            h <> "[HitObjects]" ->
                            lookup_field d8 h k = lookup_field d5 h k).
  { intros h k H1 H2 H3. unfold lookup_field. now rewrite E8. }
  assert (G5 : forall k, lookup_field d5 "[General]" k = lookup_field d2 "[General]" k).
  { intros k. unfold lookup_field.
    rewrite (store_field_other_section _ _ _ "[General]" _ _ S5) by ne.
    rewrite (store_field_other_section _ _ _ "[General]" _ _ S4) by ne.
    rewrite B3 by ne. reflexivity. }
  assert (D3 : forall k, lookup_field d3 "[Difficulty]" k = lookup_field d "[Difficulty]" k).
  { intros k. unfold lookup_field. rewrite E3 by ne. reflexivity. }
  split; [constructor|].
  - exists v1, t1. repeat split; auto.
    rewrite F8', G5 by ne.
    rewrite (store_field_other_key _ _ _ _ _ _ S2) by ne.
    eapply store_field_same; eauto.
  - exists v2, t2. repeat split; auto.
    + rewrite <- L2. symmetry. eapply store_field_other_key; [eauto | ne].
    + rewrite F8', G5 by ne. eapply store_field_same; eauto.
  - intros v Hv.
    assert (Hv2 : lookup_field d2 "[Editor]" "Bookmarks" = Ok v).
    { unfold lookup_field. rewrite E2 by ne. exact Hv. }
    destruct (B3' v Hv2) as (s & ts & -> & Hts & Hl).
    exists s, ts. repeat split; auto.
    rewrite F8' by ne.
    rewrite (store_field_other _ _ _ "[Editor]" _ _ _ S5) by ne.
    rewrite (store_field_other _ _ _ "[Editor]" _ _ _ S4) by ne.
    exact Hl.
  - exists v4, ar, n4. repeat split; auto.
    + rewrite <- D3. exact L4.
    + rewrite F8' by ne.
      rewrite (store_field_other_key _ _ _ _ _ _ S5) by ne.
      eapply store_field_same; eauto.
  - exists v5, od, n5. repeat split; auto.
    + rewrite <- D3, <- L5. symmetry. eapply store_field_other_key; [eauto | ne].
    + rewrite F8' by ne. eapply store_field_same; eauto.
  - exists ev, evs. repeat split; auto.
    + rewrite <- E5 by ne. exact G6.
    + unfold d8, d7, d6. rewrite !get_section_set_ne by ne.
      apply get_section_set_eq.
  - exists tp, tps. repeat split; auto.
    + rewrite <- E5 by ne. rewrite <- G7. unfold d6.
      now rewrite get_section_set_ne by ne.
    + unfold d8, d7. rewrite get_section_set_ne by ne.
      apply get_section_set_eq.
  - exists ho, hos. repeat split; auto.
    + rewrite <- E5 by ne. rewrite <- G8. unfold d7, d6.
      now rewrite !get_section_set_ne by ne.
    + unfold d8. apply get_section_set_eq.
  - repeat split.
    + rewrite E8, E5 by ne. reflexivity.
    + rewrite E8, E5 by ne. reflexivity.
    + rewrite F8', G5 by ne.
      rewrite (store_field_other_key _ _ _ _ _ _ S2) by ne.
      eapply store_field_other_key; [eauto | ne].
Qed.

Lemma effective_rate_ext (d d' : document) (rate : number) :
  get_section d' "[Difficulty]" = get_section d "[Difficulty]" ->
  effective_rate d' rate = effective_rate d rate.
Proof. intros H. unfold effective_rate, lookup_field. now rewrite H. Qed.

Lemma rescaled_ext (r : number) (d0 d d' d0' : document) :
  rescaled r d d' ->
  (forall h, h <> "[Metadata]" -> get_section d h = get_section d0 h) ->
  (forall h, h <> "[General]" -> get_section d0' h = get_section d' h) ->
  (forall k, k <> "AudioFilename" ->
             lookup_field d0' "[General]" k = lookup_field d' "[General]" k) ->
  rescaled r d0 d0'.
Proof.
  intros [H1 H2 H3 H4 H5 H6 H7 H8] Hin Hout Hgen.
  assert (Lin : forall h k, h <> "[Metadata]" ->
                            lookup_field d h k = lookup_field d0 h k)
    by (intros h k Hh; unfold lookup_field; now rewrite Hin).
  assert (Lout : forall h k, h <> "[General]" ->
                             lookup_field d0' h k = lookup_field d' h k)
    by (intros h k Hh; unfold lookup_field; now rewrite Hout).
  constructor.
  - destruct H1 as (v & t & A & B & C). exists v, t.
    rewrite <- Lin, Hgen by ne. auto.
  - destruct H2 as (v & t & A & B & C). exists v, t.
    rewrite <- Lin, Hgen by ne. auto.
  - intros v Hv. rewrite <- Lin in Hv by ne.
    destruct (H3 v Hv) as (s & ts & A & B & C). exists s, ts.
    rewrite Lout by ne. auto.
  - destruct H4 as (v & ar & n & A & B & C & D). exists v, ar, n.
    rewrite <- Lin, Lout by ne. auto.
  - destruct H5 as (v & ar & n & A & B & C & D). exists v, ar, n.
    rewrite <- Lin, Lout by ne. auto.
  - destruct H6 as (sec & l & A & B & C). exists sec, l.
    rewrite <- Hin, Hout by ne. auto.
  - destruct H7 as (sec & l & A & B & C). exists sec, l.
    rewrite <- Hin, Hout by ne. auto.
  - destruct H8 as (sec & l & A & B & C). exists sec, l.
    rewrite <- Hin, Hout by ne. auto.
Qed.

(** What a successful run of [speedup_osu_file] has done. *)
Lemma speedup_osu_file_spec (d d' : document) (rate : number) (job : audio_job) :
  speedup_osu_file float_repr d rate = Ok (d', job) ->
  exists version eff name,
    lookup_field d "[Metadata]" "Version" = Ok version /\
    lookup_field d' "[Metadata]" "Version"
    = Ok (VStr (py_str float_repr version ++ " " ++ num_str float_repr rate ++ "x")) /\
    effective_rate d rate = Ok eff /\
    rescaled eff d d' /\
    lookup_field d "[General]" "AudioFilename" = Ok (VStr name) /\
    job = AudioJob name eff
            (num_str float_repr rate ++ "-"
             ++ Str.slice_to (Str.rfind "." name) name ++ ".mp3") /\
    lookup_field d' "[General]" "AudioFilename" = Ok (VStr (output_path job)).
Proof.
  unfold speedup_osu_file. intros H.
  inv_bind H. rename a into version, Hstep into LV.
  inv_bind H. rename a into d1, Hstep into SV.
  inv_bind H. rename a into eff, Hstep into ER.
  inv_bind H. rename a into d2, Hstep into RD.
  unfold adjust_audio in H.
  inv_bind H. rename a into v, Hstep into LA.
  destruct v as [name|n]; [|discriminate].
  inv_bind H. rename a into d3, Hstep into SA. inv_ok H.
  apply rescale_document_spec in RD. destruct RD as (RS & M2 & _ & A2).
  exists version, eff, name. split_and!; auto.
  - rewrite (store_field_other _ _ _ "[Metadata]" _ _ _ SA) by ne.
    unfold lookup_field. rewrite M2. eapply store_field_same; eauto.
  - rewrite <- ER. symmetry. apply effective_rate_ext.
    eapply store_field_other_section; [eauto | ne].
  - eapply rescaled_ext; [exact RS | | | ].
    + intros h Hh. eapply store_field_other_section; eauto.
    + intros h Hh. eapply store_field_other_section; eauto.
    + intros k Hk. eapply store_field_other_key; eauto.
  - rewrite <- LA, A2.
    symmetry. eapply store_field_other; [eauto | ne].
  - simpl. eapply store_field_same; eauto.
Qed.






Lemma for_records_lookup (f : list value -> result (list value))
      (rs l : list (list value)) (i : nat) (r : list value) :
  for_records f (SList rs) = Ok l -> rs !! i = Some r ->
  exists r', l !! i = Some r' /\ f r = Ok r'.
Proof. simpl. apply mapM_lookup. Qed.





(** C2, amended. After a successful run the stored approach rate and
    overall difficulty are numbers of at most 10.  They are not below 0 when
    the effective rate is at least 1 and the input value is not below 0. *)
Theorem difficulty_cap (d d' : document) (rate : number) (job : audio_job) :
  speedup_osu_file float_repr d rate = Ok (d', job) ->
  exists eff v_ar v_od ar od n_ar n_od,
    effective_rate d rate = Ok eff /\
    lookup_field d "[Difficulty]" "ApproachRate" = Ok v_ar /\
    py_int v_ar = Ok ar /\
    lookup_field d "[Difficulty]" "OverallDifficulty" = Ok v_od /\
    py_int v_od = Ok od /\
    lookup_field d' "[Difficulty]" "ApproachRate" = Ok (VNum n_ar) /\
    lookup_field d' "[Difficulty]" "OverallDifficulty" = Ok (VNum n_od) /\
    (to_Q n_ar <= 10)%Q /\ (to_Q n_od <= 10)%Q /\
    ((1 <= to_Q eff)%Q -> 0 <= ar -> (0 <= to_Q n_ar)%Q) /\
    ((1 <= to_Q eff)%Q -> 0 <= od -> (0 <= to_Q n_od)%Q).
Proof.
  intros H. apply speedup_osu_file_spec in H.
  destruct H as (version & eff & name & _ & _ & ER & RS & _).
  destruct (rs_approach_rate _ _ _ RS) as (v_ar & ar & n1 & L1 & I1 & N1 & S1).
  destruct (rs_overall_difficulty _ _ _ RS) as (v_od & od & n2 & L2 & I2 & N2 & S2).
  exists eff, v_ar, v_od, ar, od, (py_min10 (py_round1 n1)),
    (py_min10 (py_round1 n2)).
  split_and!; auto.
  - apply py_min10_le.
  - apply py_min10_le.
  - intros Hr Har. apply py_min10_nonneg. apply (py_round1_nonneg n1).
    eapply new_approach_rate_nonneg; eauto.
  - intros Hr Hod. apply py_min10_nonneg. apply (py_round1_nonneg n2).
    eapply new_overall_difficulty_nonneg; eauto.
Qed.




Lemma effective_rate_non_integer (d : document) (rate : number) (s : string) :
  lookup_field d "[Difficulty]" "ApproachRate" = Ok (VStr s) \/
  lookup_field d "[Difficulty]" "OverallDifficulty" = Ok (VStr s) ->
  int_of_string s = Err ValueError ->
  exists e, effective_rate d rate = Err e.
Proof.
  intros [L|L] Hs; unfold effective_rate.
  - rewrite L. simpl. rewrite Hs. simpl. eauto.
  - destruct (lookup_field d "[Difficulty]" "ApproachRate"); simpl; [|eauto].
    destruct (py_int a); simpl; [|eauto].
    destruct (new_approach_rate a0 rate); simpl; [|eauto].
    rewrite L. simpl. rewrite Hs. simpl. eauto.
Qed.

(** A run on a difficulty setting that [int] does not take stops. *)
Lemma speedup_non_integer (d : document) (rate : number) (s : string) :
  lookup_field d "[Difficulty]" "ApproachRate" = Ok (VStr s) \/
  lookup_field d "[Difficulty]" "OverallDifficulty" = Ok (VStr s) ->
  int_of_string s = Err ValueError ->
  exists e, speedup_osu_file float_repr d rate = Err e.
Proof.
  intros L Hs. unfold speedup_osu_file.
  destruct (lookup_field d "[Metadata]" "Version") as [version|e] eqn:LV;
    simpl; [|eauto].
  destruct (store_field d "[Metadata]" "Version" _) as [d1|e] eqn:S1;
    simpl; [|eauto].
  destruct (effective_rate_non_integer d1 rate s) as [e E]; auto.
  { rewrite !(store_field_other _ _ _ "[Difficulty]" _ _ _ S1) by ne.
    exact L. }
  rewrite E. simpl. eauto.
Qed.


(** A float stored by a run is written with its [repr]; once the text is
    read back the setting is that string, and a second run stops. *)
Lemma reread_fraction_rejected (d : document) (q : Q) (rate : number) :
  writable float_repr d = true ->
  lookup_field d "[Difficulty]" "ApproachRate" = Ok (VNum (PyFloat q)) ->
  has_char "." (float_repr q) = true ->
  exists text,
    convert_dict_to_file float_repr d = Ok text /\
    convert_file_to_dict text = Ok (reread float_repr d) /\
    lookup_field (reread float_repr d) "[Difficulty]" "ApproachRate"
    = Ok (VStr (float_repr q)) /\
    exists e, speedup_osu_file float_repr (reread float_repr d) rate = Err e.
Proof.
  intros Hw L Hq.
  pose proof (writable_inv float_repr d Hw)
    as (general & editor & metadata & difficulty & events
        & timing_points & colours & hit_objects
        & (G1 & G2 & G3 & G4 & G5 & G6 & G7 & G8) & _ & Hread).
  assert (Hwrite : exists text, convert_dict_to_file float_repr d = Ok text).
  { unfold convert_dict_to_file, get_section.
    rewrite G1, G2, G3, G4, G5, G6, G7, G8. cbn [of_option bind items]. eauto. }
  destruct Hwrite as [text W].
  assert (L' : lookup_field (reread float_repr d) "[Difficulty]" "ApproachRate"
               = Ok (VStr (float_repr q))).
  { rewrite Hread. unfold lookup_field, get_section in L |- *.
    rewrite G4 in L. simpl in L.
    destruct (dict_get "ApproachRate" difficulty) as [v|] eqn:E;
      [|discriminate]. inv_ok L.
    cbn [dict_get String.eqb Ascii.eqb Bool.eqb of_option bind getitem].
    now rewrite (dict_get_pairs_as_read float_repr _ _ _ E). }
  exists text. split_and!; auto.
  - now apply read_written_text.
  - eapply speedup_non_integer; [left; exact L'|].
    now apply int_of_string_point.
Qed.

End Transform.





(** C2 as stated fails: at rate 0.5 the settings 0 and 0 become -15.0 and
    -13.3; at rate 1.125, reduced to 0.75 because of the overall difficulty
    10, the approach rate 0 becomes -5.0. *)
Lemma difficulty_cap_counterexample :
  (exists d' job,
      speedup_osu_file decimal_repr (with_difficulty "0" "0") (PyFloat (1 # 2))
      = Ok (d', job) /\
      lookup_field d' "[Difficulty]" "ApproachRate"
      = Ok (VNum (PyFloat (-15))) /\
      lookup_field d' "[Difficulty]" "OverallDifficulty"
      = Ok (VNum (PyFloat (-133 # 10)))) /\
  (exists d' job,
      speedup_osu_file decimal_repr (with_difficulty "0" "10") (PyFloat (9 # 8))
      = Ok (d', job) /\
      lookup_field d' "[Difficulty]" "ApproachRate"
      = Ok (VNum (PyFloat (-5)))) /\
  ~ (0 <= -15)%Q /\ ~ (0 <= -133 # 10)%Q /\ ~ (0 <= -5)%Q.
Proof.
  split_and!; try (intros H; apply H; reflexivity).
  - eexists _, _. split_and!; vm_compute; reflexivity.
  - eexists _, _. split_and!; vm_compute; reflexivity.
Qed.

(** The sample beatmap at rate 1.3: approach rate 9.9 and overall
    difficulty 9.2, both between 0 and 10. *)
Lemma difficulty_cap_witness :
  exists n_ar n_od,
    lookup_field sample_output "[Difficulty]" "ApproachRate" = Ok (VNum n_ar) /\
    lookup_field sample_output "[Difficulty]" "OverallDifficulty"
    = Ok (VNum n_od) /\
    (0 <= to_Q n_ar <= 10)%Q /\ (0 <= to_Q n_od <= 10)%Q.
Proof.
  assert (Hrun : speedup_osu_file decimal_repr sample_document sample_rate
                 = Ok (sample_output, sample_job)) by (vm_compute; reflexivity).
  destruct (difficulty_cap decimal_repr _ _ _ _ Hrun)
    as (eff & v_ar & v_od & ar & od & n_ar & n_od
        & E & L1 & I1 & L2 & I2 & S1 & S2 & C1 & C2 & P1 & P2).
  exists n_ar, n_od.
  vm_compute in E. injection E as <-.
  vm_compute in L1. injection L1 as <-. vm_compute in I1. injection I1 as <-.
  vm_compute in L2. injection L2 as <-. vm_compute in I2. injection I2 as <-.
  split_and!; auto.
  - apply P1; [discriminate | lia].
  - apply P2; [discriminate | lia].
Defined.



(** C5 as stated fails: a text with the header [Foo] is read without
    error, and [Foo] is not one of the eight headers. *)
Lemma unknown_section_counterexample :
  let nl := Str.newline in
  recognized "[Foo]" = false /\
  convert_file_to_dict ("osu file format v14" ++ nl ++ nl ++ "[Foo]" ++ nl)
  = Ok [("[Foo]", SDict [])] /\
  convert_file_to_dict (sample_text ++ nl ++ nl ++ "[Foo]" ++ nl)
  = Ok (sample_document ++ [("[Foo]", SDict [])])%list.
Proof. split_and!; vm_compute; reflexivity. Qed.

Lemma unknown_section_accepted_witness :
  read_line (Reader [] false "") "[Foo]" = Ok (Reader [("[Foo]", SDict [])] true "[Foo]") /\
  read_line (Reader [("[Foo]", SDict [])] true "[Foo]") "a:b" = Err AttributeError.
Proof.
  destruct (unknown_section_accepted (Reader [] false "") "[Foo]" "a:b")
    as [H1 H2]; try reflexivity; try discriminate.
  split; [exact H1|]. apply H2; [discriminate | reflexivity].
Defined.




(** C7 as stated fails.  The reader keeps ["a "] of the line
    [AudioFilename: a : b.mp3]; the writer writes it with its final space,
    the reader drops the space, and the second text differs from the first.
    With [AudioFilename: : b.mp3] the value is empty, the written line ends
    with the separator, and reading it back raises [IndexError]. *)
Lemma round_trip_counterexample :
  (exists d text d2 text2,
      convert_file_to_dict odd_text = Ok d /\
      convert_dict_to_file decimal_repr d = Ok text /\
      convert_file_to_dict text = Ok d2 /\
      convert_dict_to_file decimal_repr d2 = Ok text2 /\
      lookup_field d "[General]" "AudioFilename" = Ok (VStr "a ") /\
      lookup_field d2 "[General]" "AudioFilename" = Ok (VStr "a") /\
      text2 <> text) /\
  (exists d text,
      convert_file_to_dict odd_text_empty = Ok d /\
      convert_dict_to_file decimal_repr d = Ok text /\
      convert_file_to_dict text = Err IndexError).
Proof.
  split.
  - eexists _, _, _, _. split_and!; try (vm_compute; reflexivity).
    vm_compute. discriminate.
  - eexists _, _. split_and!; vm_compute; reflexivity.
Qed.

(** The sample beatmap after its run at rate 1.3 is written, read back
    and written again as the same text. *)
Lemma write_read_write_witness :
  exists text,
    convert_dict_to_file decimal_repr sample_output = Ok text /\
    convert_file_to_dict text = Ok (reread decimal_repr sample_output) /\
    convert_dict_to_file decimal_repr (reread decimal_repr sample_output)
    = Ok text.
Proof.
  apply (write_read_write decimal_repr sample_output).
  vm_compute. reflexivity.
Defined.


(** ** The primitives on small inputs *)

Example split_ex1 : Str.split ": " "K: a : b" = ["K"; "a "; "b"].
Proof. reflexivity. Qed.
Example split_ex2 : Str.split "," "a,,b," = ["a"; ""; "b"; ""].
Proof. reflexivity. Qed.
Example split_ex3 : Str.split ": " "Key:" = ["Key:"].
Proof. reflexivity. Qed.
Example split_ex4 : Str.split " : " "k :  : y" = ["k"; ""; "y"].
Proof. reflexivity. Qed.
Example lines_ex :
  Str.lines (String "a" (String Str.LF (String Str.LF (String "b" ""))))
  = [String "a" (String Str.LF ""); String Str.LF ""; "b"].
Proof. reflexivity. Qed.

Example int_ex1 : int_of_string " -1_000 " = Ok (-1000). Proof. reflexivity. Qed.
Example int_ex2 : int_of_string "9.9" = Err ValueError. Proof. reflexivity. Qed.
Example int_ex3 : int_of_string "1__0" = Err ValueError. Proof. reflexivity. Qed.
Example int_ex4 : int_of_string "" = Err ValueError. Proof. reflexivity. Qed.
Example float_ex1 : float_of_string "500.0" = Ok (500#1). Proof. reflexivity. Qed.
Example float_ex2 : float_of_string "-1.5e2" = Ok (-150#1). Proof. reflexivity. Qed.
Example float_ex3 : float_of_string ".5" = Ok (1#2). Proof. reflexivity. Qed.
Example float_ex4 : float_of_string "1." = Ok (1#1). Proof. reflexivity. Qed.
Example float_ex5 : float_of_string "." = Err ValueError. Proof. reflexivity. Qed.
Example float_ex6 : float_of_string "333.33" = Ok (33333#100). Proof. reflexivity. Qed.
Example str_ex1 : string_of_Z (-120) = "-120". Proof. reflexivity. Qed.
Example str_ex2 : string_of_Z 0 = "0". Proof. reflexivity. Qed.
Example round_ex1 : round_half_even (1#2) = 0. Proof. reflexivity. Qed.
Example round_ex2 : round_half_even (3#2) = 2. Proof. reflexivity. Qed.
Example round_ex3 : round_half_even (-1#2) = 0. Proof. reflexivity. Qed.
Example round_ex4 : round_half_even (-3#2) = -2. Proof. reflexivity. Qed.
Example round_ex5 : round_half_even (10000#13) = 769. Proof. reflexivity. Qed.
Example trunc_ex : Qtruncate (-99#10) = -9. Proof. reflexivity. Qed.

Example repr_ex1 : decimal_repr (13#10) = "1.3". Proof. reflexivity. Qed.
Example repr_ex2 : decimal_repr (10#1) = "10.0". Proof. reflexivity. Qed.
Example repr_ex3 : decimal_repr (-15#1) = "-15.0". Proof. reflexivity. Qed.
Example repr_ex4 : decimal_repr (99#10) = "9.9". Proof. reflexivity. Qed.
Example repr_ex5 : decimal_repr (5000#13) = "384.615384615384". Proof. reflexivity. Qed.
Example repr_ex6 : decimal_repr (1#100) = "0.01". Proof. reflexivity. Qed.

(** * Further properties *)

(** ** White space and lines *)

Lemma lstrip_blank (a : string) : blank a = true -> Str.lstrip a = "".
Proof.
  unfold blank. induction a as [|c a IH]; simpl; [reflexivity|].
  intros H. apply andb_true_iff in H. destruct H as [-> H]. auto.
Qed.

Lemma lstrip_blank_app (a x : string) :
  blank a = true -> Str.lstrip (a ++ x) = Str.lstrip x.
Proof.
  unfold blank. induction a as [|c a IH]; simpl; [reflexivity|].
  intros H. apply andb_true_iff in H. destruct H as [-> H]. auto.
Qed.

Lemma rstrip_blank (b : string) : blank b = true -> Str.rstrip b = "".
Proof.
  unfold blank. induction b as [|c b IH]; simpl; [reflexivity|].
  intros H. apply andb_true_iff in H. destruct H as [Hc H].
  now rewrite IH, Hc.
Qed.

Lemma rstrip_app_blank (x b : string) :
  blank b = true -> Str.rstrip (x ++ b) = Str.rstrip x.
Proof.
  intros Hb. induction x as [|c x IH]; simpl.
  - now apply rstrip_blank.
  - now rewrite IH.
Qed.

Lemma strip_app_blank (x b : string) :
  blank b = true -> Str.strip (x ++ b) = Str.strip x.
Proof.
  intros Hb. unfold Str.strip. induction x as [|c x IH].
  - simpl. now rewrite (lstrip_blank b Hb).
  - cbn [append Str.lstrip]. destruct (Str.is_space c); [exact IH|].
    change (String c (x ++ b)) with (String c x ++ b).
    now apply rstrip_app_blank.
Qed.

(** X1. White space before and after a line does not count: the reader
    does with the line what it does with the line without it. *)
Theorem white_space_around_line (st : reader) (a l b : string) :
  blank a = true -> blank b = true ->
  read_line st (a ++ l ++ b) = read_line st l.
Proof.
  intros Ha Hb.
  assert (E : Str.strip (a ++ l ++ b) = Str.strip l).
  { transitivity (Str.strip (l ++ b)).
    - unfold Str.strip. now rewrite lstrip_blank_app.
    - now apply strip_app_blank. }
  unfold read_line. now rewrite E.
Qed.

Lemma cons_head_app (c : ascii) (l1 l2 : list string) :
  l1 <> [] -> Str.cons_head c (l1 ++ l2) = (Str.cons_head c l1 ++ l2)%list.
Proof. destruct l1; [congruence | reflexivity]. Qed.

Lemma cons_head_nonempty (c : ascii) (l : list string) : Str.cons_head c l <> [].
Proof. destruct l; discriminate. Qed.

Lemma lines_nonempty (c : ascii) (s : string) : Str.lines (String c s) <> [].
Proof.
  simpl. destruct (Ascii.eqb c Str.LF); [discriminate|].
  destruct (Ascii.eqb c Str.CR).
  - destruct s as [|c' s]; [discriminate|].
    destruct (Ascii.eqb c' Str.LF); discriminate.
  - apply cons_head_nonempty.
Qed.

(** The lines of a text cut after a line feed are the lines of the two
    parts. *)
Lemma lines_app_aux (n : nat) : forall a b : string,
  (String.length a <= n)%nat ->
  Str.lines (a ++ String Str.LF b)
  = (Str.lines (a ++ String Str.LF "") ++ Str.lines b)%list.
Proof.
  induction n as [|n IH]; intros a b Hn.
  - destruct a; [reflexivity | simpl in Hn; lia].
  - destruct a as [|c a]; [reflexivity|].
    simpl in Hn. cbn [append Str.lines].
    destruct (Ascii.eqb c Str.LF).
    { rewrite (IH a b) by lia. reflexivity. }
    destruct (Ascii.eqb c Str.CR).
    { destruct a as [|c' a]; [reflexivity|]. cbn [append].
      destruct (Ascii.eqb c' Str.LF).
      - simpl in Hn. rewrite (IH a b) by lia. reflexivity.
      - change (String c' (a ++ String Str.LF b))
          with (String c' a ++ String Str.LF b).
        change (String c' (a ++ String Str.LF ""))
          with (String c' a ++ String Str.LF "").
        rewrite (IH (String c' a) b) by lia. reflexivity. }
    rewrite (IH a b) by lia. apply cons_head_app.
    destruct a; [discriminate | apply lines_nonempty].
Qed.

Lemma lines_app (a b : string) :
  Str.lines (a ++ Str.newline ++ b)
  = (Str.lines (a ++ Str.newline) ++ Str.lines b)%list.
Proof. apply (lines_app_aux (String.length a)). lia. Qed.

Lemma lines_newline_nonempty (a : string) : Str.lines (a ++ Str.newline) <> [].
Proof. destruct a; [discriminate | apply lines_nonempty]. Qed.

Lemma read_loop_app (st : reader) (l1 l2 : list string) :
  read_loop st (l1 ++ l2)%list = (st' <- read_loop st l1 ;; read_loop st' l2).
Proof.
  revert st. induction l1 as [|l l1 IH]; intros st; simpl; [reflexivity|].
  destruct (read_line st l); simpl; auto.
Qed.

Lemma tail_app_nonempty {A : Type} (l1 l2 : list A) :
  l1 <> [] -> tail (l1 ++ l2) = (tail l1 ++ l2)%list.
Proof. destruct l1; [congruence | reflexivity]. Qed.

(** X2. A comment line, one that starts with two slashes after white space,
    can be taken out of a text after its first line: the reader returns the
    same. *)
Theorem comment_line_ignored (a c b : string) :
  has_char Str.LF c = false -> has_char Str.CR c = false ->
  Str.startswith "//" (Str.strip c) = true ->
  convert_file_to_dict (a ++ Str.newline ++ c ++ Str.newline ++ b)
  = convert_file_to_dict (a ++ Str.newline ++ b).
Proof.
  intros HL HC Hc. unfold convert_file_to_dict.
  rewrite (lines_app a (c ++ Str.newline ++ b)), (lines_app a b).
  rewrite !tail_app_nonempty by apply lines_newline_nonempty.
  rewrite lines_line by assumption.
  rewrite !read_loop_app. f_equal.
  destruct (read_loop _ _) as [st|e]; [|reflexivity].
  cbn [bind read_loop].
  assert (E : read_line st (c ++ Str.newline) = Ok st).
  { unfold read_line.
    rewrite (strip_app_blank c Str.newline eq_refl), Hc. reflexivity. }
  now rewrite E.
Qed.

(** X3. The first line of the text is read and dropped: two texts that
    differ in their first line only are read the same, whether the line
    names the format, is a header or anything else. *)
Theorem first_line_ignored (l1 l2 rest : string) :
  has_char Str.LF l1 = false -> has_char Str.CR l1 = false ->
  has_char Str.LF l2 = false -> has_char Str.CR l2 = false ->
  convert_file_to_dict (l1 ++ Str.newline ++ rest)
  = convert_file_to_dict (l2 ++ Str.newline ++ rest).
Proof.
  intros H1 H2 H3 H4. unfold convert_file_to_dict.
  rewrite (lines_line l1 rest H1 H2), (lines_line l2 rest H3 H4).
  reflexivity.
Qed.

(** ** The lines of a section *)

Lemma prefix_drop (p s : string) :
  String.prefix p s = true -> s = p ++ Str.drop (String.length p) s.
Proof.
  revert s. induction p as [|a p IH]; intros s H; [reflexivity|].
  destruct s as [|b s]; [discriminate|].
  rewrite prefix_cons in H. apply andb_true_iff in H. destruct H as [H1 H2].
  apply Ascii.eqb_eq in H1. subst b. simpl. f_equal. auto.
Qed.

Lemma split_go_skip (sep : string) (k : nat) (s : string) :
  Str.split_go sep k s = Str.split_go sep 0 (Str.drop k s).
Proof.
  revert s. induction k as [|k IH]; intros s; [reflexivity|].
  destruct s as [|c s]; [reflexivity|]. simpl Str.drop. rewrite <- IH.
  reflexivity.
Qed.

Lemma split_go_nonempty (sep : string) (s : string) (k : nat) :
  Str.split_go sep k s <> [].
Proof.
  revert k. induction s as [|c s IH]; intros k; cbn [Str.split_go];
    [discriminate|].
  destruct k; [|apply IH].
  destruct (String.prefix sep (String c s)); [discriminate|].
  destruct (Str.split_go sep 0 s) eqn:E; [exfalso; eapply IH; eauto|].
  discriminate.
Qed.

Lemma join_cons (sep x : string) (l : list string) :
  l <> [] -> Str.join sep (x :: l) = x ++ sep ++ Str.join sep l.
Proof. destruct l; [congruence | reflexivity]. Qed.

Lemma join_cons_head (sep : string) (c : ascii) (l : list string) :
  l <> [] -> Str.join sep (Str.cons_head c l) = String c (Str.join sep l).
Proof.
  destruct l as [|x l]; [congruence|]. intros _. simpl Str.cons_head.
  destruct l; reflexivity.
Qed.

Lemma drop_length_le (k : nat) (s : string) :
  (String.length (Str.drop k s) <= String.length s)%nat.
Proof.
  revert s. induction k as [|k IH]; intros s; simpl; [lia|].
  destruct s as [|c s]; simpl; [lia|]. specialize (IH s). lia.
Qed.

Lemma join_split_aux (sep : string) (n : nat) : forall s,
  sep <> "" -> (String.length s <= n)%nat ->
  Str.join sep (Str.split_go sep 0 s) = s.
Proof.
  induction n as [|n IH]; intros s Hsep Hn.
  - destruct s; [reflexivity | simpl in Hn; lia].
  - destruct s as [|c s]; [reflexivity|]. simpl in Hn.
    cbn [Str.split_go].
    destruct (String.prefix sep (String c s)) eqn:P.
    + rewrite join_cons by apply split_go_nonempty.
      rewrite split_go_skip, IH; auto.
      * destruct sep as [|a sep]; [congruence|].
        pose proof (prefix_drop _ _ P) as E. simpl in E.
        replace (String.length (String a sep) - 1)%nat with (String.length sep)
          by (simpl; lia).
        injection E as E1 E2. rewrite E2 at 2. now subst a.
      * pose proof (drop_length_le (String.length sep - 1) s). lia.
    + rewrite join_cons_head by apply split_go_nonempty.
      f_equal. apply IH; auto. lia.
Qed.

(** The pieces of a text joined by the separator are the text. *)
Lemma join_split (sep s : string) :
  sep <> "" -> Str.join sep (Str.split sep s) = s.
Proof. intros H. apply (join_split_aux sep (String.length s)); auto. Qed.

Lemma pair_header_branch (h sep : string) (st : reader) (line : string) :
  pair_header h sep ->
  (if String.eqb h "[General]" || String.eqb h "[Editor]"
   then store_pair st (Str.split ": " line)
   else if String.eqb h "[Metadata]" || String.eqb h "[Difficulty]"
   then store_pair st (Str.split ":" line)
   else if String.eqb h "[Colours]"
   then store_pair st (Str.split " : " line)
   else append_record st (Str.split "," line))
  = store_pair st (Str.split sep line).
Proof.
  intros [[[-> | ->] ->] | [[[-> | ->] ->] | [-> ->]]]; reflexivity.
Qed.

Lemma list_header_branch (h : string) (st : reader) (line : string) :
  list_header h ->
  (if String.eqb h "[General]" || String.eqb h "[Editor]"
   then store_pair st (Str.split ": " line)
   else if String.eqb h "[Metadata]" || String.eqb h "[Difficulty]"
   then store_pair st (Str.split ":" line)
   else if String.eqb h "[Colours]"
   then store_pair st (Str.split " : " line)
   else append_record st (Str.split "," line))
  = append_record st (Str.split "," line).
Proof. intros [-> | [-> | ->]]; reflexivity. Qed.

(** A line inside a section that is neither empty nor a comment. *)
Lemma read_line_data (d : document) (h raw : string) :
  Str.strip raw <> "" -> Str.startswith "//" (Str.strip raw) = false ->
  read_line (Reader d true h) raw
  = (let line := Str.strip raw in
     let st := Reader d true h in
     if String.eqb h "[General]" || String.eqb h "[Editor]"
     then store_pair st (Str.split ": " line)
     else if String.eqb h "[Metadata]" || String.eqb h "[Difficulty]"
     then store_pair st (Str.split ":" line)
     else if String.eqb h "[Colours]"
     then store_pair st (Str.split " : " line)
     else append_record st (Str.split "," line)).
Proof.
  intros Hne Hc. unfold read_line. rewrite Hc.
  apply String.eqb_neq in Hne. rewrite Hne. reflexivity.
Qed.

(** X4. In a key-value section a line without the separator of the
    section raises [IndexError], whether or not the section is in the
    dictionary: the value is taken before the section is looked up. *)
Theorem pair_without_separator (d : document) (h sep raw : string) :
  pair_header h sep ->
  Str.strip raw <> "" -> Str.startswith "//" (Str.strip raw) = false ->
  Str.contains sep (Str.strip raw) = false ->
  read_line (Reader d true h) raw = Err IndexError.
Proof.
  intros Hh Hne Hc Hs. rewrite read_line_data by assumption. cbv zeta.
  rewrite (pair_header_branch h sep _ _ Hh).
  unfold Str.split. rewrite (split_go_none _ _ Hs). reflexivity.
Qed.


Section Lines.

Variable float_repr : Q -> string.

Lemma map_py_str_VStr (l : list string) :
  map (py_str float_repr) (map VStr l) = l.
Proof. induction l; simpl; congruence. Qed.

(** X6. A line of a section of records is cut at its commas and stored as
    one more record; joined with commas again, as the writer does, the
    record is the stripped line: nothing of the line is lost. *)
Theorem record_line_kept (d : document) (h raw : string)
        (rs : list (list value)) :
  list_header h ->
  Str.strip raw <> "" -> Str.startswith "//" (Str.strip raw) = false ->
  get_section d h = Ok (SList rs) ->
  exists r,
    read_line (Reader d true h) raw
    = Ok (Reader (dict_set h (SList (rs ++ [r])) d) true h) /\
    Str.join "," (map (py_str float_repr) r) = Str.strip raw.
Proof.
  intros Hh Hne Hc Hd. exists (map VStr (Str.split "," (Str.strip raw))). split.
  - rewrite read_line_data by assumption. cbv zeta.
    rewrite (list_header_branch h _ _ Hh).
    unfold append_record. cbn [osu_file_dict current_header is_in_section].
    now rewrite (bind_eq _ _ _ Hd).
  - rewrite map_py_str_VStr. apply join_split. discriminate.
Qed.

End Lines.

(** ** What the reader returns, and what it raises *)

Lemma existsb_keys_set {V : Type} (x k : string) (v : V) (d : dict V) :
  existsb (String.eqb x) (map fst (dict_set k v d))
  = existsb (String.eqb x) (map fst d) || String.eqb x k.
Proof.
  induction d as [|[k' v'] d IH]; simpl.
  - now rewrite orb_false_r.
  - destruct (String.eqb k k') eqn:E; simpl.
    + apply String.eqb_eq in E. subst k'.
      destruct (String.eqb x k); simpl; [reflexivity | now rewrite orb_false_r].
    + rewrite IH. now rewrite orb_assoc.
Qed.

Lemma nodupb_keys_set {V : Type} (k : string) (v : V) (d : dict V) :
  nodupb (map fst d) = true -> nodupb (map fst (dict_set k v d)) = true.
Proof.
  induction d as [|[k' v'] d IH]; simpl; [reflexivity|].
  intros H. apply andb_true_iff in H. destruct H as [H1 H2].
  destruct (String.eqb k k') eqn:E; simpl.
  - now rewrite H1, H2.
  - rewrite existsb_keys_set, IH by assumption.
    apply negb_true_iff in H1. rewrite H1. simpl.
    rewrite String.eqb_sym, E. reflexivity.
Qed.

Lemma forallb_dict_set {V : Type} (P : string * V -> bool) (k : string) (v : V)
      (d : dict V) :
  P (k, v) = true -> forallb P d = true -> forallb P (dict_set k v d) = true.
Proof.
  intros Hk. induction d as [|[k' v'] d IH]; simpl.
  - now rewrite Hk.
  - intros H. apply andb_true_iff in H. destruct H as [H1 H2].
    destruct (String.eqb k k') eqn:E; simpl.
    + apply String.eqb_eq in E. subst k'. now rewrite Hk, H2.
    + now rewrite H1, IH.
Qed.

Lemma forallb_dict_get {V : Type} (P : string * V -> bool) (k : string) (v : V)
      (d : dict V) :
  forallb P d = true -> dict_get k d = Some v -> P (k, v) = true.
Proof.
  induction d as [|[k' v'] d IH]; simpl; [discriminate|].
  intros H. apply andb_true_iff in H. destruct H as [H1 H2].
  destruct (String.eqb k k') eqn:E.
  - apply String.eqb_eq in E. subst k'. intros H. now inv_ok H.
  - auto.
Qed.

Lemma read_shape_set (d : document) (h : string) (sec : section) :
  read_shape d = true -> section_shape h sec = true ->
  read_shape (dict_set h sec d) = true.
Proof.
  unfold read_shape. intros H Hs. apply andb_true_iff in H.
  destruct H as [H1 H2]. rewrite nodupb_keys_set by assumption.
  now rewrite (forallb_dict_set (fun '(h, sec) => section_shape h sec)).
Qed.

Lemma read_shape_get (d : document) (h : string) (sec : section) :
  read_shape d = true -> dict_get h d = Some sec -> section_shape h sec = true.
Proof.
  unfold read_shape. intros H Hg. apply andb_true_iff in H. destruct H as [_ H].
  exact (forallb_dict_get (fun '(h, sec) => section_shape h sec) _ _ _ H Hg).
Qed.

Lemma forallb_is_string (l : list string) : forallb is_string (map VStr l) = true.
Proof. induction l; simpl; auto. Qed.

Lemma store_pair_ok (st st' : reader) (sep line : string) :
  reader_ok st -> is_in_section st = true ->
  store_pair st (Str.split sep line) = Ok st' -> reader_ok st'.
Proof.
  intros [Hs Hin] Hi H. unfold store_pair in H.
  inv_bind H. inv_bind H. inv_bind H. inv_bind H. inv_ok H.
  unfold get_section in Hstep0.
  destruct (dict_get (current_header st) (osu_file_dict st)) as [sec|] eqn:G;
    [|discriminate]. simpl in Hstep0. inv_ok Hstep0.
  pose proof (read_shape_get _ _ _ Hs G) as Hsec.
  destruct a0 as [rs|kv]; [discriminate|]. simpl in Hstep2. inv_ok Hstep2.
  split; cbn [osu_file_dict is_in_section current_header].
  - apply read_shape_set; [assumption|].
    simpl in Hsec |- *. rewrite !andb_true_iff in Hsec.
    destruct Hsec as [[H1 H2] H3]. rewrite H1. simpl.
    rewrite nodupb_keys_set by assumption. simpl.
    now apply (forallb_dict_set (fun '(_, v) => is_string v)).
  - intros _. rewrite dict_get_set_eq. eauto.
Qed.

Lemma store_pair_err (st : reader) (sep line : string) (e : exn) :
  reader_ok st -> is_in_section st = true ->
  list_headerb (current_header st) = false ->
  store_pair st (Str.split sep line) = Err e -> e = IndexError.
Proof.
  intros [Hs Hin] Hi Hh H. unfold store_pair in H.
  destruct (Str.split sep line) as [|k [|v rest]] eqn:E.
  - simpl in H. congruence.
  - simpl in H. congruence.
  - unfold index in H. simpl in H.
    destruct (Hin Hi) as [sec G]. unfold get_section in H. rewrite G in H.
    simpl in H. pose proof (read_shape_get _ _ _ Hs G) as Hsec.
    destruct sec as [rs|kv]; [|discriminate].
    simpl in Hsec. rewrite Hh in Hsec. discriminate.
Qed.

Lemma append_record_ok (st st' : reader) (line : string) :
  reader_ok st -> is_in_section st = true ->
  append_record st (Str.split "," line) = Ok st' -> reader_ok st'.
Proof.
  intros [Hs Hin] Hi H. unfold append_record in H.
  inv_bind H. unfold get_section in Hstep.
  destruct (dict_get (current_header st) (osu_file_dict st)) as [sec|] eqn:G;
    [|discriminate]. simpl in Hstep. inv_ok Hstep.
  pose proof (read_shape_get _ _ _ Hs G) as Hsec.
  destruct a as [rs|kv]; [|discriminate]. inv_ok H.
  split; cbn [osu_file_dict is_in_section current_header].
  - apply read_shape_set; [assumption|].
    simpl in Hsec |- *. rewrite andb_true_iff in Hsec.
    destruct Hsec as [H1 H2]. rewrite H1. simpl.
    rewrite forallb_app, H2. simpl. rewrite forallb_is_string, !andb_true_r.
    apply negb_true_iff, Nat.eqb_neq. rewrite length_map.
    pose proof (split_go_nonempty "," line 0) as Hne. unfold Str.split.
    destruct (Str.split_go "," 0 line); [congruence | simpl; lia].
  - intros _. rewrite dict_get_set_eq. eauto.
Qed.

Lemma append_record_err (st : reader) (line : list string) (e : exn) :
  reader_ok st -> is_in_section st = true ->
  append_record st line = Err e -> e = AttributeError.
Proof.
  intros [Hs Hin] Hi H. unfold append_record in H.
  destruct (Hin Hi) as [sec G]. unfold get_section in H. rewrite G in H.
  simpl in H. destruct sec; congruence.
Qed.

Lemma list_headerb_pair (h : string) :
  String.eqb h "[General]" || String.eqb h "[Editor]"
  || (String.eqb h "[Metadata]" || String.eqb h "[Difficulty]")
  || String.eqb h "[Colours]" = true ->
  list_headerb h = false.
Proof.
  rewrite !orb_true_iff, !String.eqb_eq.
  intros [[[-> | ->] | [-> | ->]] | ->]; reflexivity.
Qed.

Lemma read_line_ok (st st' : reader) (raw : string) :
  reader_ok st -> read_line st raw = Ok st' -> reader_ok st'.
Proof.
  intros Hok H. unfold read_line in H.
  destruct (Str.startswith "//" (Str.strip raw)); [inv_ok H; assumption|].
  destruct (String.eqb (Str.strip raw) "").
  { inv_ok H. destruct Hok as [Hs _]. split; [assumption | discriminate]. }
  destruct (is_in_section st) eqn:Hin; cbn [negb] in H.
  - destruct (String.eqb (current_header st) "[General]"
              || String.eqb (current_header st) "[Editor]");
      [eapply store_pair_ok; eauto|].
    destruct (String.eqb (current_header st) "[Metadata]"
              || String.eqb (current_header st) "[Difficulty]");
      [eapply store_pair_ok; eauto|].
    destruct (String.eqb (current_header st) "[Colours]");
      [eapply store_pair_ok; eauto|].
    eapply append_record_ok; eauto.
  - destruct Hok as [Hs _].
    fold (list_headerb (Str.strip raw)) in H.
    destruct (list_headerb (Str.strip raw)) eqn:Hh; inv_ok H;
      (split; cbn [osu_file_dict is_in_section current_header];
       [apply read_shape_set; [assumption | simpl; now rewrite Hh]
       | intros _; rewrite dict_get_set_eq; eauto]).
Qed.

Lemma read_line_err (st : reader) (raw : string) (e : exn) :
  reader_ok st -> read_line st raw = Err e ->
  e = IndexError \/ e = AttributeError.
Proof.
  intros Hok H. unfold read_line in H.
  destruct (Str.startswith "//" (Str.strip raw)); [discriminate|].
  destruct (String.eqb (Str.strip raw) ""); [discriminate|].
  destruct (is_in_section st) eqn:Hin; cbn [negb] in H.
  - destruct (String.eqb (current_header st) "[General]"
              || String.eqb (current_header st) "[Editor]") eqn:E1.
    { left. eapply store_pair_err; eauto. apply list_headerb_pair.
      now rewrite E1. }
    destruct (String.eqb (current_header st) "[Metadata]"
              || String.eqb (current_header st) "[Difficulty]") eqn:E2.
    { left. eapply store_pair_err; eauto. apply list_headerb_pair.
      rewrite E2. now rewrite orb_true_r. }
    destruct (String.eqb (current_header st) "[Colours]") eqn:E3.
    { left. eapply store_pair_err; eauto. apply list_headerb_pair.
      rewrite E3. now rewrite orb_true_r. }
    right. eapply append_record_err; eauto.
  - destruct (_ || _); discriminate.
Qed.

Lemma read_loop_ok (ls : list string) : forall st st',
  reader_ok st -> read_loop st ls = Ok st' -> reader_ok st'.
Proof.
  induction ls as [|l ls IH]; simpl; intros st st' Hok H.
  - now inv_ok H.
  - inv_bind H. eauto using read_line_ok.
Qed.

Lemma read_loop_err (ls : list string) : forall st e,
  reader_ok st -> read_loop st ls = Err e ->
  e = IndexError \/ e = AttributeError.
Proof.
  induction ls as [|l ls IH]; simpl; intros st e Hok H; [discriminate|].
  destruct (read_line st l) as [st'|e'] eqn:E; simpl in H.
  - eauto using read_line_ok.
  - inv_ok H. eauto using read_line_err.
Qed.

Lemma reader_ok_init : reader_ok (Reader [] false "").
Proof. split; [reflexivity | discriminate]. Qed.

(** X7. The dictionary that the reader returns has a list of records, none
    of them empty, under each of [Events], [TimingPoints] and [HitObjects]
    that it has, a dictionary under every other header, and strings for all
    its values; no header and no key occurs twice. *)
Theorem reader_shape (text : string) (d : document) :
  convert_file_to_dict text = Ok d -> read_shape d = true.
Proof.
  unfold convert_file_to_dict. intros H. inv_bind H. inv_ok H.
  now destruct (read_loop_ok _ _ _ reader_ok_init Hstep).
Qed.

(** X8. The only exceptions of the reader are [IndexError], raised by
    [line[1]] on a key-value line without separator, and [AttributeError],
    raised by [append] on a dictionary: a section is looked up only under a
    header that was stored, and no key-value header holds a list. *)
Theorem reader_exceptions (text : string) (e : exn) :
  convert_file_to_dict text = Err e -> e = IndexError \/ e = AttributeError.
Proof.
  unfold convert_file_to_dict. intros H.
  destruct (read_loop _ _) as [st|e'] eqn:E; simpl in H; [discriminate|].
  inv_ok H. eapply read_loop_err; [apply reader_ok_init | eassumption].
Qed.

(** ** When a run returns *)


Lemma rescale_rate (v : value) (r : number) (t : Z) :
  rescale v r = Ok t -> ~ (to_Q r == 0)%Q.
Proof. intros H. apply rescale_ok in H. now destruct H as (t0 & _ & H & _). Qed.












Section Domain.

Variable float_repr : Q -> string.



End Domain.

(** ** What a run keeps *)

Lemma keys_dict_set {V : Type} (k : string) (v v0 : V) (d : dict V) :
  dict_get k d = Some v0 -> map fst (dict_set k v d) = map fst d.
Proof.
  induction d as [|[k' v'] d IH]; simpl; [discriminate|].
  destruct (String.eqb k k'); simpl; [reflexivity|].
  intros H. now rewrite IH.
Qed.

Lemma same_shape_refl (d : document) : same_shape d d.
Proof. split; eauto. Qed.

Lemma same_shape_trans (d1 d2 d3 : document) :
  same_shape d1 d2 -> same_shape d2 d3 -> same_shape d1 d3.
Proof.
  intros [K1 S1] [K2 S2]. split; [congruence|].
  intros h sec Hs. destruct (S1 h sec Hs) as (sec2 & G2 & A2).
  destruct (S2 h sec2 G2) as (sec3 & G3 & A3).
  exists sec3. split; [assumption|].
  destruct A2 as [A2 | (In2 & -> & ->)], A3 as [A3 | (In3 & E3 & ->)].
  - left. congruence.
  - right. subst sec2. destruct sec as [rs|[|p kv]]; try discriminate. auto.
  - right. destruct sec3 as [[|r rs]|kv]; try discriminate. auto.
  - discriminate.
Qed.

Lemma same_shape_set (d : document) (h : string) (sec sec' : section) :
  dict_get h d = Some sec ->
  (shape_of sec' = shape_of sec \/
   In h replaced_sections /\ sec = SDict [] /\ sec' = SList []) ->
  same_shape d (dict_set h sec' d).
Proof.
  intros G K. split; [eapply keys_dict_set; eauto|].
  intros h0 sec0 G0. destruct (String.eqb_spec h h0) as [<-|Hne].
  - rewrite dict_get_set_eq. rewrite G in G0. inv_ok G0. eauto.
  - rewrite dict_get_set_ne by assumption. eauto.
Qed.

Lemma same_shape_store (d d' : document) (h k : string) (v v0 : value) :
  lookup_field d h k = Ok v0 -> store_field d h k v = Ok d' -> same_shape d d'.
Proof.
  unfold lookup_field, store_field, get_section. intros L H.
  destruct (dict_get h d) as [sec|] eqn:G; [|discriminate]. simpl in L, H.
  destruct sec as [rs|kv]; [discriminate|]. simpl in L, H. inv_ok H.
  destruct (dict_get k kv) as [v1|] eqn:Gk; [|discriminate].
  eapply same_shape_set; eauto. left. simpl. f_equal. eapply keys_dict_set; eauto.
Qed.

Lemma adjust_event_length (r : number) (e e' : list value) :
  adjust_event r e = Ok e' -> length e' = length e.
Proof.
  intros H. apply adjust_event_inv in H.
  destruct H as (tag & v1 & t1 & _ & _ & _ & H).
  destruct (eq_int tag 2 || eq_str tag "Break").
  - destruct H as (v2 & t2 & _ & _ & ->). now rewrite !length_insert.
  - subst e'. now rewrite length_insert.
Qed.

Lemma adjust_timing_point_length (r : number) (e e' : list value) :
  adjust_timing_point r e = Ok e' -> length e' = length e.
Proof.
  intros H. apply adjust_timing_point_inv in H.
  destruct H as (v0 & t0 & flag & _ & _ & _ & H).
  destruct (eq_str flag "1").
  - destruct H as (v1 & x & y & _ & _ & _ & ->). now rewrite !length_insert.
  - subst e'. now rewrite length_insert.
Qed.

Lemma adjust_hit_object_length (r : number) (e e' : list value) :
  adjust_hit_object r e = Ok e' -> length e' = length e.
Proof.
  intros H. apply adjust_hit_object_inv in H.
  destruct H as (v2 & t2 & v3 & type & _ & _ & _ & _ & H).
  destruct (Z.testbit type 3).
  - destruct H as (v5 & t5 & _ & _ & ->). now rewrite !length_insert.
  - subst e'. now rewrite length_insert.
Qed.

Lemma mapM_sizes {A : Type} (f : list A -> result (list A)) (l l' : list (list A)) :
  (forall a b, f a = Ok b -> length b = length a) ->
  mapM f l = Ok l' -> map length l' = map length l.
Proof.
  intros Hf. revert l'. induction l as [|a l IH]; simpl; intros l' H.
  - now inv_ok H.
  - inv_bind H. inv_bind H. inv_ok H. simpl. f_equal; eauto.
Qed.

Lemma same_shape_records (f : list value -> result (list value)) (d : document)
      (h : string) (sec : section) (l : list (list value)) :
  (forall a b, f a = Ok b -> length b = length a) ->
  In h replaced_sections ->
  get_section d h = Ok sec -> for_records f sec = Ok l ->
  same_shape d (dict_set h (SList l) d).
Proof.
  intros Hf Hin G H. unfold get_section in G.
  destruct (dict_get h d) as [sec0|] eqn:G0; [|discriminate]. simpl in G. inv_ok G.
  eapply same_shape_set; eauto.
  destruct sec as [rs|[|p kv]]; simpl in H |- *; try discriminate.
  - left. f_equal. eapply mapM_sizes; eauto.
  - inv_ok H. auto.
Qed.

Lemma same_shape_bookmarks (d d' : document) (r : number) :
  adjust_bookmarks d r = Ok d' -> same_shape d d'.
Proof.
  unfold adjust_bookmarks. intros H. inv_bind H.
  destruct (has_key "Bookmarks" a).
  - inv_bind H. destruct a0 as [s|n]; [|discriminate]. inv_bind H.
    eapply same_shape_store; [|eauto].
    unfold lookup_field. rewrite Hstep. simpl. exact Hstep0.
  - inv_ok H. apply same_shape_refl.
Qed.

Lemma same_shape_rescale (d d' : document) (r : number) :
  rescale_document d r = Ok d' -> same_shape d d'.
Proof.
  unfold rescale_document. intros H. do 21 inv_bind H. inv_ok H.
  repeat (eapply same_shape_trans;
          [| first [ eapply same_shape_records; [| | eassumption | eassumption];
                     first [ apply adjust_hit_object_length
                           | apply adjust_timing_point_length
                           | apply adjust_event_length
                           | simpl; tauto ]
                   | eapply same_shape_store; [|eassumption]; eassumption
                   | eapply same_shape_bookmarks; eassumption ] ]).
  apply same_shape_refl.
Qed.

Lemma unchanged_refl (d : document) : unchanged_outside d d.
Proof. split; auto. Qed.

Lemma unchanged_trans (d1 d2 d3 : document) :
  unchanged_outside d1 d2 -> unchanged_outside d2 d3 -> unchanged_outside d1 d3.
Proof.
  intros [A1 B1] [A2 B2]. split.
  - intros h k H1 H2. rewrite A2, A1; auto.
  - intros h H1 H2. rewrite B2, B1; auto.
Qed.

Lemma unchanged_store (d d' : document) (h k : string) (v : value) :
  In (h, k) assigned_fields ->
  store_field d h k v = Ok d' -> unchanged_outside d d'.
Proof.
  intros Hin H. split.
  - intros h0 k0 _ H0. destruct (String.eqb_spec h h0) as [<-|Hne].
    + eapply store_field_other_key; [eauto|]. intros <-. contradiction.
    + eapply store_field_other; eauto.
  - intros h0 _ H0. eapply store_field_other_section; [eauto|].
    intros <-. apply H0. now apply (in_map fst) in Hin.
Qed.

Lemma unchanged_set (d : document) (h : string) (sec : section) :
  In h replaced_sections -> unchanged_outside d (dict_set h sec d).
Proof.
  intros Hin. split.
  - intros h0 k0 H0 _. apply lookup_field_set_ne. intros <-. contradiction.
  - intros h0 H0 _. apply get_section_set_ne. intros <-. contradiction.
Qed.

Lemma unchanged_bookmarks (d d' : document) (r : number) :
  adjust_bookmarks d r = Ok d' -> unchanged_outside d d'.
Proof.
  unfold adjust_bookmarks. intros H. inv_bind H.
  destruct (has_key "Bookmarks" a).
  - inv_bind H. destruct a0 as [s|n]; [|discriminate]. inv_bind H.
    eapply unchanged_store; [|eauto]. simpl; tauto.
  - inv_ok H. apply unchanged_refl.
Qed.

Lemma unchanged_rescale (d d' : document) (r : number) :
  rescale_document d r = Ok d' -> unchanged_outside d d'.
Proof.
  unfold rescale_document. intros H. do 21 inv_bind H. inv_ok H.
  repeat (eapply unchanged_trans;
          [| first [ apply unchanged_set; simpl; tauto
                   | eapply unchanged_store; [|eassumption]; simpl; tauto
                   | eapply unchanged_bookmarks; eassumption ] ]).
  apply unchanged_refl.
Qed.

Section Frame.

Variable float_repr : Q -> string.

Lemma speedup_same_shape (d d' : document) (rate : number) (job : audio_job) :
  speedup_osu_file float_repr d rate = Ok (d', job) -> same_shape d d'.
Proof.
  unfold speedup_osu_file. intros H.
  inv_bind H. rename a into version, Hstep into LV.
  inv_bind H. rename a into d1, Hstep into SV.
  inv_bind H. rename a into eff, Hstep into ER.
  inv_bind H. rename a into d2, Hstep into RD.
  unfold adjust_audio in H.
  inv_bind H. rename a into v, Hstep into LA.
  destruct v as [name|n]; [|discriminate].
  inv_bind H. rename a into d3, Hstep into SA. inv_ok H.
  eapply same_shape_trans; [eapply same_shape_store; [exact LV | exact SV]|].
  eapply same_shape_trans; [eapply same_shape_rescale; exact RD|].
  eapply same_shape_store; [exact LA | exact SA].
Qed.

Lemma speedup_unchanged (d d' : document) (rate : number) (job : audio_job) :
  speedup_osu_file float_repr d rate = Ok (d', job) -> unchanged_outside d d'.
Proof.
  unfold speedup_osu_file. intros H.
  inv_bind H. rename a into version, Hstep into LV.
  inv_bind H. rename a into d1, Hstep into SV.
  inv_bind H. rename a into eff, Hstep into ER.
  inv_bind H. rename a into d2, Hstep into RD.
  unfold adjust_audio in H.
  inv_bind H. rename a into v, Hstep into LA.
  destruct v as [name|n]; [|discriminate].
  inv_bind H. rename a into d3, Hstep into SA. inv_ok H.
  eapply unchanged_trans;
    [eapply unchanged_store; [|exact SV]; simpl; tauto|].
  eapply unchanged_trans; [eapply unchanged_rescale; exact RD|].
  eapply unchanged_store; [|exact SA]. simpl; tauto.
Qed.

(** X10. A run adds no section and removes none, and keeps their order.
    Every dictionary keeps its keys and their order; every list keeps the
    number of its records and the number of fields of each record.  The one
    change of kind: an empty dictionary in the place of [Events],
    [TimingPoints] or [HitObjects] becomes an empty list. *)
Theorem speedup_keeps_shape (d d' : document) (rate : number)
        (job : audio_job) :
  speedup_osu_file float_repr d rate = Ok (d', job) ->
  map fst d' = map fst d /\
  forall h sec, get_section d h = Ok sec ->
    exists sec', get_section d' h = Ok sec' /\
      match sec, sec' with
      | SDict kv, SDict kv' => map fst kv' = map fst kv
      | SList rs, SList rs' => map length rs' = map length rs
      | SDict kv, SList rs' => In h replaced_sections /\ kv = [] /\ rs' = []
      | SList _, SDict _ => False
      end.
Proof.
  intros H. destruct (speedup_same_shape d d' rate job H) as [K S].
  split; [exact K|]. intros h sec G. unfold get_section in G |- *.
  destruct (dict_get h d) as [sec0|] eqn:E; [|discriminate].
  simpl in G. inv_ok G.
  destruct (S h sec E) as (sec' & -> & [A | (Hin & -> & ->)]).
  - exists sec'. split; [reflexivity|].
    destruct sec, sec'; simpl in A; try discriminate; now injection A.
  - exists (SList []). split; [reflexivity | auto].
Qed.

(** X11. A run changes nothing outside the seven fields it assigns to
    ([Version], [AudioLeadIn], [PreviewTime], [Bookmarks], [ApproachRate],
    [OverallDifficulty], [AudioFilename]) and the three sections of
    records: every other field of a dictionary section keeps its value,
    every section that is not one of the eight of the format is the same,
    and so is [Colours]. *)
Theorem speedup_frame (d d' : document) (rate : number) (job : audio_job) :
  speedup_osu_file float_repr d rate = Ok (d', job) ->
  (forall h k, ~ In h replaced_sections -> ~ In (h, k) assigned_fields ->
               lookup_field d' h k = lookup_field d h k) /\
  (forall h, recognized h = false -> get_section d' h = get_section d h) /\
  get_section d' "[Colours]" = get_section d "[Colours]".
Proof.
  intros H. destruct (speedup_unchanged d d' rate job H) as [A B].
  split_and!.
  - exact A.
  - intros h Hh. apply recognized_false in Hh.
    destruct Hh as (R1 & R2 & R3 & R4 & R5 & R6 & R7 & R8).
    apply String.eqb_neq in R1, R2, R3, R4, R5, R6, R8.
    apply B; simpl; intuition congruence.
  - apply B; simpl; intuition discriminate.
Qed.

End Frame.

(** ** Rounding and order *)



Lemma round_half_even_mono (x y : Q) :
  (x <= y)%Q -> round_half_even x <= round_half_even y.
Proof.
  intros H. pose proof (Qfloor_resp_le _ _ H) as Hf.
  destruct (Z.eq_dec (Qfloor x) (Qfloor y)) as [E|E].
  - unfold round_half_even. rewrite E.
    destruct (Qcompare_spec (x - inject_Z (Qfloor y)) (1 # 2)) as [E1|E1|E1];
      destruct (Qcompare_spec (y - inject_Z (Qfloor y)) (1 # 2)) as [E2|E2|E2];
      try lia; try lra; destruct (Z.even (Qfloor y)); lia.
  - assert (Hx : round_half_even x <= Qfloor x + 1).
    { apply round_le_Z. pose proof (Qlt_floor x). lra. }
    assert (Hy : Qfloor y <= round_half_even y).
    { apply round_ge_Z. apply Qfloor_le. }
    lia.
Qed.

Lemma Qdiv_mono_pos (a b r : Q) : (0 < r -> a <= b -> a / r <= b / r)%Q.
Proof.
  intros Hr H. unfold Qdiv. apply Qmult_le_compat_r; [exact H|].
  apply Qlt_le_weak, Qinv_lt_0_compat, Hr.
Qed.

Lemma Qdiv_mono_neg (a b r : Q) : (r < 0 -> a <= b -> b / r <= a / r)%Q.
Proof.
  intros Hr H.
  assert (E : forall c, (c / r == (- c) / (- r))%Q) by (intros c; field; lra).
  rewrite (E a), (E b). apply Qdiv_mono_pos; lra.
Qed.

(** X16. [round(int(v) / rate)], the rescaling of every time stamp, keeps
    the order of two time stamps at a positive rate and turns it round at a
    negative rate. *)
Theorem rescale_order (v1 v2 : value) (rate : number) (t1 t2 t1' t2' : Z) :
  py_int v1 = Ok t1 -> py_int v2 = Ok t2 -> t1 <= t2 ->
  rescale v1 rate = Ok t1' -> rescale v2 rate = Ok t2' ->
  ((0 < to_Q rate)%Q -> t1' <= t2') /\ ((to_Q rate < 0)%Q -> t2' <= t1').
Proof.
  intros I1 I2 Hle R1 R2.
  apply rescale_ok in R1, R2.
  destruct R1 as (u1 & J1 & _ & ->), R2 as (u2 & J2 & _ & ->).
  rewrite I1 in J1. rewrite I2 in J2. inv_ok J1. inv_ok J2.
  rewrite Zle_Qle in Hle.
  split; intros Hr; apply round_half_even_mono.
  - now apply Qdiv_mono_pos.
  - now apply Qdiv_mono_neg.
Qed.

(** ** When the rate is divided by 1.5 *)










(** ** The rate of a run *)








Section Rate.

Variable float_repr : Q -> string.




End Rate.

(** ** The audio request *)

Lemma rfind_from_none (c : ascii) (s : string) (i last : Z) :
  has_char c s = false -> Str.rfind_from c i last s = last.
Proof.
  revert i last. induction s as [|a s IH]; intros i last H; [reflexivity|].
  simpl in H |- *. apply orb_false_iff in H. destruct H as [-> H]. auto.
Qed.

Lemma rfind_from_app (c : ascii) (a b : string) (i last : Z) :
  Str.rfind_from c i last (a ++ b)
  = Str.rfind_from c (i + Z.of_nat (String.length a))
                   (Str.rfind_from c i last a) b.
Proof.
  revert i last. induction a as [|x a IH]; intros i last.
  - simpl. now rewrite Z.add_0_r.
  - cbn [append Str.rfind_from String.length]. rewrite IH. f_equal. lia.
Qed.

Lemma rfind_last (c : ascii) (a b : string) :
  has_char c b = false ->
  Str.rfind c (a ++ String c b) = Z.of_nat (String.length a).
Proof.
  intros H. unfold Str.rfind. rewrite rfind_from_app.
  cbn [Str.rfind_from]. rewrite Ascii.eqb_refl. now rewrite rfind_from_none.
Qed.

Lemma rfind_from_bound (c : ascii) (s : string) (i last : Z) :
  Str.rfind_from c i last s = last
  \/ i <= Str.rfind_from c i last s < i + Z.of_nat (String.length s).
Proof.
  revert i last. induction s as [|a s IH]; intros i last; [now left|].
  cbn [Str.rfind_from String.length].
  destruct (Ascii.eqb a c).
  - right. destruct (IH (i + 1) i) as [-> | H]; lia.
  - destruct (IH (i + 1) last) as [-> | H]; [now left | right; lia].
Qed.

Lemma rfind_bound (c : ascii) (s : string) :
  Str.rfind c s = -1 \/ 0 <= Str.rfind c s < Z.of_nat (String.length s).
Proof. unfold Str.rfind. destruct (rfind_from_bound c s 0 (-1)); auto. Qed.

Lemma take_app_length (a b : string) : Str.take (String.length a) (a ++ b) = a.
Proof. induction a as [|x a IH]; simpl; [now destruct b | now rewrite IH]. Qed.

Lemma string_take_length (n : nat) (s : string) :
  (n <= String.length s)%nat -> String.length (Str.take n s) = n.
Proof.
  revert s. induction n as [|n IH]; intros s H; [now destruct s|].
  destruct s as [|c s]; simpl in *; [lia|]. rewrite IH; lia.
Qed.


Lemma string_length_app (a b : string) :
  String.length (a ++ b) = (String.length a + String.length b)%nat.
Proof. induction a; simpl; auto. Qed.

Lemma slice_to_last (a : string) (c : ascii) :
  Str.slice_to (-1) (a ++ String c "") = a.
Proof.
  unfold Str.slice_to. change (-1 <? 0) with true. cbv iota.
  rewrite string_length_app. simpl String.length.
  replace (Z.to_nat (Z.max 0 (Z.of_nat (String.length a + 1) + -1)))
    with (String.length a) by lia.
  apply take_app_length.
Qed.

Section Audio.

Variable float_repr : Q -> string.


(** X18. An audio file name without a dot loses its last character in the
    name of the output: [rfind] returns -1 and the slice stops one
    character before the end. *)
Theorem audio_name_without_dot (d d' : document) (rate : number)
        (job : audio_job) (stem : string) (c : ascii) :
  lookup_field d "[General]" "AudioFilename" = Ok (VStr (stem ++ String c "")) ->
  has_char "." (stem ++ String c "") = false ->
  speedup_osu_file float_repr d rate = Ok (d', job) ->
  output_path job = num_str float_repr rate ++ "-" ++ stem ++ ".mp3".
Proof.
  intros LA Hdot H. apply speedup_osu_file_spec in H.
  destruct H as (version & eff' & name & _ & _ & _ & _ & LA' & -> & _).
  rewrite LA in LA'. inv_ok LA'. cbn [output_path].
  unfold Str.rfind. rewrite (rfind_from_none _ _ _ _ Hdot).
  now rewrite slice_to_last.
Qed.

(** X19. The output of the audio request is never its input, whatever
    the name of the audio file and the text written for the rate. *)
Theorem audio_output_is_new (d d' : document) (rate : number) (job : audio_job) :
  speedup_osu_file float_repr d rate = Ok (d', job) ->
  output_path job <> input_path job.
Proof.
  intros H. apply speedup_osu_file_spec in H.
  destruct H as (version & eff' & name & _ & _ & _ & _ & _ & -> & _).
  cbn [output_path input_path]. intros E.
  assert (R : Str.rfind "." name
              = Z.of_nat (String.length (num_str float_repr rate ++ "-"
                            ++ Str.slice_to (Str.rfind "." name) name))).
  { rewrite <- E at 1. rewrite <- !append_assoc.
    change (".mp3") with (String "." "mp3"). now apply rfind_last. }
  rewrite !string_length_app in R. simpl (String.length "-") in R.
  destruct (rfind_bound "." name) as [Hn | Hn]; [lia|].
  unfold Str.slice_to in R.
  destruct (Z.ltb_spec (Str.rfind "." name) 0) as [Hneg|_]; [lia|].
  rewrite string_take_length in R by lia. lia.
Qed.

End Audio.

(** ** Integers written and read *)
















(** ** A run on the result of a run *)











Section Again.

Variable float_repr : Q -> string.



(** X21. In a document read from a file every field is a string, so the
    comparison of an event type with the number 2 never holds: a run
    rescales the end time, field 2, of the events whose first field is
    [Break] only, and an event line that starts with 2 keeps every field
    but field 1. *)
Theorem file_event_end_time (text : string) (d d' : document) (rate : number)
        (job : audio_job) (rs : list (list value)) (i : nat) (r : list value) :
  convert_file_to_dict text = Ok d ->
  speedup_osu_file float_repr d rate = Ok (d', job) ->
  get_section d "[Events]" = Ok (SList rs) -> rs !! i = Some r ->
  r !! 0%nat <> Some (VStr "Break") ->
  exists rs' r',
    get_section d' "[Events]" = Ok (SList rs') /\ rs' !! i = Some r' /\
    forall j, j <> 1%nat -> r' !! j = r !! j.
Proof.
  intros R H G Hi Hb.
  unfold convert_file_to_dict in R. inv_bind R. inv_ok R.
  destruct (read_loop_ok _ _ _ reader_ok_init Hstep) as [Hshape _].
  apply speedup_osu_file_spec in H.
  destruct H as (version & eff & name & _ & _ & _ & RS & _).
  destruct (rs_events _ _ _ RS) as (sec & l & G0 & F & G').
  rewrite G in G0. inv_ok G0.
  destruct (for_records_lookup _ _ _ _ _ F Hi) as (r' & Hi' & A).
  exists l, r'. split_and!; auto.
  apply adjust_event_inv in A.
  destruct A as (tag & v1 & t1 & H0 & H1 & R1 & A).
  assert (S : is_string tag = true).
  { unfold get_section in G.
    destruct (dict_get "[Events]" (osu_file_dict a)) as [sec|] eqn:E;
      [|discriminate].
    simpl in G. inv_ok G.
    pose proof (read_shape_get _ _ _ Hshape E) as Hs. simpl in Hs.
    rewrite forallb_forall in Hs.
    specialize (Hs r (proj1 (list_elem_of_In _ _)
                        (list_elem_of_lookup_2 _ _ _ Hi))).
    apply andb_true_iff in Hs. destruct Hs as [_ Hs].
    rewrite forallb_forall in Hs.
    exact (Hs tag (proj1 (list_elem_of_In _ _)
                     (list_elem_of_lookup_2 _ _ _ H0))). }
  destruct tag as [s|n]; [|discriminate]. cbn [eq_int eq_str orb] in A.
  destruct (String.eqb_spec s "Break") as [->|_]; [contradiction|].
  subst r'. intros j Hj. now apply insert_other.
Qed.

End Again.

(** ** What the writer needs *)

Lemma is_dict_items (d : document) (h : string) :
  is_dict d h = true ->
  exists sec kv, get_section d h = Ok sec /\ items sec = Ok kv.
Proof.
  unfold is_dict, get_section. destruct (dict_get h d) as [[rs|kv]|];
    try discriminate. simpl. eauto.
Qed.

Lemma items_is_dict (d : document) (h : string) (sec : section) (kv : dict value) :
  get_section d h = Ok sec -> items sec = Ok kv -> is_dict d h = true.
Proof.
  unfold is_dict, get_section. destruct (dict_get h d) as [sec0|];
    simpl; [|discriminate]. intros G. inv_ok G.
  destruct sec; simpl; [discriminate | reflexivity].
Qed.

Lemma is_present_section (d : document) (h : string) :
  is_present d h = true <-> exists sec, get_section d h = Ok sec.
Proof.
  unfold is_present, get_section. destruct (dict_get h d); simpl; split;
    intros H; eauto; try discriminate. destruct H; discriminate.
Qed.

Section Writer.

Variable float_repr : Q -> string.

Lemma written_printable (d : document) (text : string) :
  convert_dict_to_file float_repr d = Ok text -> printable d = true.
Proof.
  unfold printable, convert_dict_to_file. rewrite !andb_true_iff. intros H.
  do 13 inv_bind H.
  split_and!;
    first [ eapply items_is_dict; eassumption
          | apply is_present_section; eauto ].
Qed.

Lemma printable_written (d : document) :
  printable d = true -> exists text, convert_dict_to_file float_repr d = Ok text.
Proof.
  unfold printable, convert_dict_to_file. rewrite !andb_true_iff.
  intros [[[[[[[H1 H2] H3] H4] H5] H6] H7] H8].
  apply is_dict_items in H1, H2, H3, H4, H7.
  apply is_present_section in H5, H6, H8.
  destruct H1 as (s1 & kv1 & G1 & I1), H2 as (s2 & kv2 & G2 & I2),
           H3 as (s3 & kv3 & G3 & I3), H4 as (s4 & kv4 & G4 & I4),
           H7 as (s7 & kv7 & G7 & I7),
           H5 as [s5 G5], H6 as [s6 G6], H8 as [s8 G8].
  rewrite (bind_eq _ _ _ G1), (bind_eq _ _ _ I1).
  rewrite (bind_eq _ _ _ G2), (bind_eq _ _ _ I2).
  rewrite (bind_eq _ _ _ G3), (bind_eq _ _ _ I3).
  rewrite (bind_eq _ _ _ G4), (bind_eq _ _ _ I4).
  rewrite (bind_eq _ _ _ G5), (bind_eq _ _ _ G6).
  rewrite (bind_eq _ _ _ G7), (bind_eq _ _ _ I7).
  rewrite (bind_eq _ _ _ G8). eauto.
Qed.

Lemma get_section_err (d : document) (h : string) (e : exn) :
  get_section d h = Err e -> e = KeyError.
Proof.
  unfold get_section. destruct (dict_get h d); simpl; intros H;
    [discriminate | now inv_ok H].
Qed.

Lemma items_err (sec : section) (e : exn) :
  items sec = Err e -> e = AttributeError.
Proof. destruct sec; simpl; intros H; [now inv_ok H | discriminate]. Qed.

Lemma writer_err (d : document) (e : exn) :
  convert_dict_to_file float_repr d = Err e ->
  e = KeyError \/ e = AttributeError.
Proof.
  unfold convert_dict_to_file. intros H.
  repeat match type of H with
         | bind ?m _ = Err _ =>
             let E := fresh "E" in
             destruct m eqn:E; cbn [bind] in H;
             [| inv_ok H;
                first [ left; eapply get_section_err; eassumption
                      | right; eapply items_err; eassumption ] ]
         end.
  discriminate H.
Qed.

(** X22. The writer returns a text exactly on the printable documents,
    those with a dictionary under each of the five key-value headers and a
    section under each of the three headers of records; on any other
    document it raises [KeyError], for a missing section, or
    [AttributeError], for a list in the place of a dictionary. *)
Theorem writer_domain (d : document) :
  match convert_dict_to_file float_repr d with
  | Ok _ => printable d = true
  | Err e => printable d = false /\ (e = KeyError \/ e = AttributeError)
  end.
Proof.
  destruct (convert_dict_to_file float_repr d) as [text|e] eqn:H.
  - exact (written_printable d text H).
  - split; [|exact (writer_err d e H)].
    destruct (printable d) eqn:P; [|reflexivity].
    destruct (printable_written d P) as [text H']. congruence.
Qed.

(** X23. The writer looks at the eight sections of the format only: a
    section under any other header, which the reader accepts, is not
    written. *)
Theorem writer_ignores_other_sections (d : document) (h : string)
        (sec : section) :
  recognized h = false ->
  convert_dict_to_file float_repr (dict_set h sec d)
  = convert_dict_to_file float_repr d.
Proof.
  intros Hh. apply recognized_false in Hh.
  destruct Hh as (R1 & R2 & R3 & R4 & R5 & R6 & R7 & R8).
  apply String.eqb_neq in R1, R2, R3, R4, R5, R6, R7, R8.
  unfold convert_dict_to_file.
  now rewrite !get_section_set_ne by congruence.
Qed.

End Writer.

(** ** The program *)







Section Main.

Variable float_repr : Q -> string.


End Main.

(** ** Runs of the further properties *)

(** An indented header with blanks after it is the header. *)
Lemma white_space_around_line_witness :
  read_line (Reader [] false "") ("  " ++ "[General]" ++ "   ")
  = read_line (Reader [] false "") "[General]".
Proof.
  apply (white_space_around_line (Reader [] false "") "  " "[General]" "   ");
    reflexivity.
Defined.

(** The comment of the sample beatmap can be left out. *)
Lemma comment_line_ignored_witness :
  let nl := Str.newline in
  let a := "osu file format v14" ++ nl ++ nl ++ "[Events]" in
  convert_file_to_dict
    (a ++ nl ++ "//Break Periods" ++ nl ++ "2,1000,2000")
  = convert_file_to_dict (a ++ nl ++ "2,1000,2000").
Proof.
  apply (comment_line_ignored
           ("osu file format v14" ++ Str.newline ++ Str.newline ++ "[Events]")
           "//Break Periods" "2,1000,2000");
    reflexivity.
Defined.

(** A header in the first line is lost like the name of the format. *)
Lemma first_line_ignored_witness :
  let rest := "[Editor]" ++ Str.newline ++ "Bookmarks: 1" in
  convert_file_to_dict ("osu file format v14" ++ Str.newline ++ rest)
  = convert_file_to_dict ("[General]" ++ Str.newline ++ rest).
Proof.
  apply (first_line_ignored "osu file format v14" "[General]"
           ("[Editor]" ++ Str.newline ++ "Bookmarks: 1"));
    reflexivity.
Defined.

(** A colon without the space after it is not the separator of
    [General]. *)
Lemma pair_without_separator_witness :
  read_line (Reader [("[General]", SDict [])] true "[General]") "AudioLeadIn:0"
  = Err IndexError.
Proof.
  apply (pair_without_separator [("[General]", SDict [])] "[General]" ": "
           "AudioLeadIn:0").
  - left. split; [left|]; reflexivity.
  - discriminate.
  - reflexivity.
  - reflexivity.
Defined.


(** A break line with white space around it. *)
Lemma record_line_kept_witness :
  exists r,
    read_line (Reader [("[Events]", SList [])] true "[Events]") " 2,1000,2000 "
    = Ok (Reader (dict_set "[Events]" (SList ([] ++ [r]))
                           [("[Events]", SList [])]) true "[Events]") /\
    Str.join "," (map (py_str decimal_repr) r) = "2,1000,2000".
Proof.
  apply (record_line_kept decimal_repr [("[Events]", SList [])] "[Events]"
           " 2,1000,2000 " []).
  - left. reflexivity.
  - discriminate.
  - reflexivity.
  - reflexivity.
Defined.

(** The sample beatmap as it is read. *)
Lemma reader_shape_witness :
  convert_file_to_dict sample_text = Ok sample_document /\
  read_shape sample_document = true.
Proof.
  assert (R : convert_file_to_dict sample_text = Ok sample_document)
    by (vm_compute; reflexivity).
  split; [exact R|]. exact (reader_shape sample_text sample_document R).
Defined.

(** The two exceptions of the reader. *)
Lemma reader_exceptions_witness :
  let nl := Str.newline in
  convert_file_to_dict ("v" ++ nl ++ "[General]" ++ nl ++ "AudioLeadIn:0")
  = Err IndexError /\
  convert_file_to_dict ("v" ++ nl ++ "[Foo]" ++ nl ++ "a:b")
  = Err AttributeError /\
  (IndexError = IndexError \/ IndexError = AttributeError).
Proof.
  assert (R : convert_file_to_dict
                ("v" ++ Str.newline ++ "[General]" ++ Str.newline
                 ++ "AudioLeadIn:0") = Err IndexError)
    by (vm_compute; reflexivity).
  split_and!; [exact R | vm_compute; reflexivity |].
  exact (reader_exceptions _ _ R).
Defined.





(** The times 1000 and 2000 at the rates 1.3 and -1.3. *)
Lemma rescale_order_witness :
  rescale (VStr "1000") sample_rate = Ok 769 /\
  rescale (VStr "2000") sample_rate = Ok 1538 /\
  769 <= 1538 /\
  rescale (VStr "1000") (PyFloat (-13 # 10)) = Ok (-769) /\
  rescale (VStr "2000") (PyFloat (-13 # 10)) = Ok (-1538) /\
  -1538 <= -769.
Proof.
  split_and!; try reflexivity.
  - apply (rescale_order (VStr "1000") (VStr "2000") sample_rate
             1000 2000 769 1538); try reflexivity; lia.
  - apply (rescale_order (VStr "1000") (VStr "2000") (PyFloat (-13 # 10))
             1000 2000 (-769) (-1538)); try reflexivity; lia.
Defined.


(** The audio file [audio] gives the output [1.3-audi.mp3]. *)
Lemma audio_name_without_dot_witness :
  exists d' job,
    speedup_osu_file decimal_repr (with_audio "audio" sample_document) sample_rate
    = Ok (d', job) /\
    output_path job = "1.3-audi.mp3".
Proof.
  destruct (speedup_osu_file decimal_repr (with_audio "audio" sample_document)
              sample_rate) as [[d' job]|e] eqn:Hrun;
    [|vm_compute in Hrun; discriminate].
  exists d', job. split; [reflexivity|].
  exact (audio_name_without_dot decimal_repr
           (with_audio "audio" sample_document) d' sample_rate job "audi" "o"
           eq_refl eq_refl Hrun).
Defined.

(** The sample run writes its audio to a new file. *)
Lemma audio_output_is_new_witness :
  output_path sample_job = "1.3-audio.mp3" /\
  input_path sample_job = "audio.mp3" /\
  output_path sample_job <> input_path sample_job.
Proof.
  split_and!; try reflexivity.
  apply (audio_output_is_new decimal_repr sample_document sample_output
           sample_rate sample_job).
  vm_compute. reflexivity.
Defined.


(** The break of the sample beatmap written with the type 2 keeps its end
    time 2000 at rate 1.3. *)
Lemma file_event_end_time_witness :
  exists rs' r',
    get_section sample_output "[Events]" = Ok (SList rs') /\
    rs' !! 1%nat = Some r' /\
    r' !! 0%nat = Some (VStr "2") /\ r' !! 2%nat = Some (VStr "2000").
Proof.
  destruct (file_event_end_time decimal_repr sample_text sample_document
              sample_output sample_rate sample_job
              [ map VStr ["0"; "0"; "bg.jpg"; "0"; "0"];
                map VStr ["2"; "1000"; "2000"];
                map VStr ["Break"; "1000"; "2000"] ]
              1%nat (map VStr ["2"; "1000"; "2000"]))
    as (rs' & r' & G & L & K);
    try (vm_compute; reflexivity); [discriminate|].
  exists rs', r'. split_and!; [exact G | exact L | |].
  - rewrite K by lia. reflexivity.
  - rewrite K by lia. reflexivity.
Defined.

(** The section [Foo] is not written. *)
Lemma writer_ignores_other_sections_witness :
  convert_dict_to_file decimal_repr
    (dict_set "[Foo]" (SDict [("a", VStr "b")]) sample_output)
  = convert_dict_to_file decimal_repr sample_output.
Proof.
  apply (writer_ignores_other_sections decimal_repr sample_output "[Foo]"
           (SDict [("a", VStr "b")])).
  reflexivity.
Defined.

(** The sample run keeps the eight sections in their order, and the three
    events have 5, 3 and 3 fields as before. *)
Lemma speedup_keeps_shape_witness :
  map fst sample_output = map fst sample_document /\
  exists sec',
    get_section sample_output "[Events]" = Ok sec' /\
    match sec' with
    | SList rs' => map length rs' = [5; 3; 3]%nat
    | SDict _ => False
    end.
Proof.
  assert (Hrun : speedup_osu_file decimal_repr sample_document sample_rate
                 = Ok (sample_output, sample_job)) by (vm_compute; reflexivity).
  destruct (speedup_keeps_shape decimal_repr sample_document sample_output
              sample_rate sample_job Hrun) as [K S].
  split; [exact K|].
  destruct (S "[Events]"
              (SList [ map VStr ["0"; "0"; "bg.jpg"; "0"; "0"];
                       map VStr ["2"; "1000"; "2000"];
                       map VStr ["Break"; "1000"; "2000"] ]) eq_refl)
    as (sec' & G & M).
  exists sec'. split; [exact G | exact M].
Defined.

(** The sample run keeps the title and the colours. *)
Lemma speedup_frame_witness :
  lookup_field sample_output "[Metadata]" "Title"
  = lookup_field sample_document "[Metadata]" "Title" /\
  get_section sample_output "[Colours]" = get_section sample_document "[Colours]".
Proof.
  assert (Hrun : speedup_osu_file decimal_repr sample_document sample_rate
                 = Ok (sample_output, sample_job)) by (vm_compute; reflexivity).
  destruct (speedup_frame decimal_repr sample_document sample_output
              sample_rate sample_job Hrun) as (A & _ & C).
  split; [|exact C].
  apply A; simpl; intuition discriminate.
Defined.
